(** * SFDeploy: a shallow embedding of the hot-deploy pipeline

    The Go program compiles a SmartFox extension, copies the archive into
    the server, restarts the server and cleans up.  Every function of the
    monolithic source (and the [setupDirectories] variant of [config.go])
    is embedded as a state-passing function over a [World]: the file tree,
    the console, the environment and the external programs.

    Conventions of the embedding:
    - strings are [string]; only ASCII white space and ASCII letters are
      treated by [TrimSpace], [Fields] and [ToLower];
    - a path is a string as in the source; the operating system resolves it
      by splitting it on the separators of the platform;
    - the working directory of the process is the root of the file tree;
    - what is printed is logged as the format string and its arguments
      (the decorative pictographs of the messages are left out);
    - an external program is an oracle of the run so far. *)

From Stdlib Require Import String Ascii List Bool Arith Lia DecimalString.
Import ListNotations.
Open Scope string_scope.
Open Scope list_scope.

Set Implicit Arguments.

(* ================================================================= *)
(** ** The functions of Go's [strings] package that the program uses  *)
(* ================================================================= *)

Module Strs.

(** [strings.Contains s sub]. *)
Fixpoint Contains (s sub : string) : bool :=
  match s with
  | EmptyString => prefix sub s
  | String _ s' => prefix sub s || Contains s' sub
  end.

(** [strings.HasSuffix s suf]: some tail of [s] is [suf]. *)
Fixpoint HasSuffix (s suf : string) : bool :=
  (s =? suf) ||
  match s with
  | EmptyString => false
  | String _ s' => HasSuffix s' suf
  end.

Definition lower_ascii (c : ascii) : ascii :=
  let n := nat_of_ascii c in
  if ((65 <=? n) && (n <=? 90))%nat then ascii_of_nat (n + 32) else c.

(** [strings.ToLower]. *)
Fixpoint ToLower (s : string) : string :=
  match s with
  | EmptyString => EmptyString
  | String c s' => String (lower_ascii c) (ToLower s')
  end.

(** White space: tab, line feed, vertical tab, form feed, carriage
    return and space. *)
Definition is_space (c : ascii) : bool :=
  let n := nat_of_ascii c in
  (((9 <=? n) && (n <=? 13)) || (n =? 32))%nat.

Fixpoint trim_left (s : string) : string :=
  match s with
  | EmptyString => EmptyString
  | String c s' => if is_space c then trim_left s' else s
  end.

Fixpoint trim_right (s : string) : string :=
  match s with
  | EmptyString => EmptyString
  | String c s' =>
      let t := trim_right s' in
      if is_space c && (t =? "") then "" else String c t
  end.

(** [strings.TrimSpace]. *)
Definition TrimSpace (s : string) : string := trim_right (trim_left s).

(** Cutting a string at every character that satisfies [p]; the pieces
    between two cuts may be empty, and there is always one piece. *)
Fixpoint split_by (p : ascii -> bool) (s : string) : list string :=
  match s with
  | EmptyString => [""]
  | String c s' =>
      let r := split_by p s' in
      if p c then "" :: r
      else match r with
           | h :: t => String c h :: t
           | [] => [String c ""]
           end
  end.

(** [strings.Split s sep] for a separator of one character, the only
    kind the program uses (a line feed, a comma). *)
Definition Split (s : string) (sep : ascii) : list string :=
  split_by (Ascii.eqb sep) s.

Definition nonempty (s : string) : bool := negb (s =? "").

(** [strings.Fields]: the maximal runs without white space. *)
Definition Fields (s : string) : list string :=
  filter nonempty (split_by is_space s).

(** [strings.Join]. *)
Definition Join (l : list string) (sep : string) : string := String.concat sep l.

End Strs.

(* ================================================================= *)
(** ** Paths ([path/filepath])                                        *)
(* ================================================================= *)

(** [runtime.GOOS]: the program only asks whether it is ["windows"]. *)
Inductive GOOS := windows | other_os.

Definition is_windows (os : GOOS) : bool :=
  match os with windows => true | other_os => false end.

Module Filepath.

Definition Separator (os : GOOS) : string :=
  if is_windows os then "\" else "/".

Definition is_sep (os : GOOS) (c : ascii) : bool :=
  (c =? "/")%char || (is_windows os && (c =? "\")%char).

Definition is_abs (os : GOOS) (s : string) : bool :=
  match s with
  | String c _ => is_sep os c
  | EmptyString => false
  end.

(** One step of the lexical clean-up: [stack] holds the elements kept so
    far, the last one first. *)
Definition clean_step (abs : bool) (stack : list string) (e : string)
  : list string :=
  if (e =? "") || (e =? ".") then stack
  else if e =? ".." then
    match stack with
    | top :: rest => if top =? ".." then e :: stack else rest
    | [] => if abs then [] else [e]
    end
  else e :: stack.

(** The elements of a path after the clean-up of [filepath.Clean]. *)
Definition elements (os : GOOS) (s : string) : list string :=
  rev (fold_left (clean_step (is_abs os s)) (Strs.split_by (is_sep os) s) []).

Definition render (os : GOOS) (abs : bool) (els : list string) : string :=
  if abs then (Separator os ++ String.concat (Separator os) els)%string
  else match els with
       | [] => "."
       | _ => String.concat (Separator os) els
       end.

(** [filepath.Clean]. *)
Definition Clean (os : GOOS) (s : string) : string :=
  render os (is_abs os s) (elements os s).

(** [filepath.Join]: the non-empty arguments, joined and cleaned; the
    empty string when there is none. *)
Definition Join (os : GOOS) (elems : list string) : string :=
  match filter Strs.nonempty elems with
  | [] => ""
  | nz => Clean os (String.concat (Separator os) nz)
  end.

(** [filepath.Dir]: everything up to the last separator, cleaned. *)
Definition Dir (os : GOOS) (s : string) : string :=
  match removelast (Strs.split_by (is_sep os) s) with
  | [] => "."
  | ps => Clean os (String.concat (Separator os) ps ++ Separator os)%string
  end.

(** [filepath.Base] of a cleaned path. *)
Definition Base (os : GOOS) (s : string) : string :=
  last (elements os s) (if is_abs os s then Separator os else ".").

(** Only the star is interpreted in a pattern. *)
Definition hasMeta (s : string) : bool := Strs.Contains s "*".

(** [filepath.Match] for patterns of literal characters and stars. *)
Fixpoint Match (pat name : string) : bool :=
  match pat with
  | EmptyString => name =? ""
  | String c pat' =>
      if (c =? "*")%char then
        (fix any (n : string) : bool :=
           Match pat' n ||
           match n with
           | EmptyString => false
           | String _ n' => any n'
           end) name
      else
        match name with
        | String d name' => (c =? d)%char && Match pat' name'
        | EmptyString => false
        end
  end.

End Filepath.

(* ================================================================= *)
(** ** The file tree                                                  *)
(* ================================================================= *)

Module FS.

(** A file holds its bytes and may be locked by another process (it
    can then be neither removed nor overwritten).  A directory lists its
    entries in the order in which they are enumerated (Go sorts the
    names); it may be unreadable (listing it fails) or read-only (no
    entry can be added to it or removed from it). *)
#[local] Unset Elimination Schemes.
Inductive node : Type :=
| File (name : string) (data : string) (locked : bool)
| Dir (name : string) (readable writable : bool) (entries : list node).
#[local] Set Elimination Schemes.

Definition name (n : node) : string :=
  match n with File nm _ _ => nm | Dir nm _ _ _ => nm end.

Definition isDir (n : node) : bool :=
  match n with File _ _ _ => false | Dir _ _ _ _ => true end.

Fixpoint find_child (nm : string) (l : list node) : option node :=
  match l with
  | [] => None
  | k :: l' => if name k =? nm then Some k else find_child nm l'
  end.

(** The entry that a list of path elements leads to. *)
Fixpoint lookup (n : node) (p : list string) : option node :=
  match p with
  | [] => Some n
  | c :: p' =>
      match n with
      | Dir _ _ _ kids =>
          match find_child c kids with
          | Some k => lookup k p'
          | None => None
          end
      | File _ _ _ => None
      end
  end.

(** Replaces the entry called [nm] by what [g] makes of it. *)
Fixpoint map_child (nm : string) (g : node -> option node) (l : list node)
  : option (list node) :=
  match l with
  | [] => None
  | k :: l' =>
      if name k =? nm then option_map (fun k' => k' :: l') (g k)
      else option_map (cons k) (map_child nm g l')
  end.

(** Takes the entry called [nm] out of a listing: a locked file and a
    directory that is not empty stay. *)
Fixpoint remove_child (nm : string) (l : list node) : option (list node) :=
  match l with
  | [] => None
  | k :: l' =>
      if name k =? nm then
        match k with
        | File _ _ locked => if locked then None else Some l'
        | Dir _ _ _ [] => Some l'
        | Dir _ _ _ (_ :: _) => None
        end
      else option_map (cons k) (remove_child nm l')
  end.

(** A new entry takes its place in the order of the names. *)
Fixpoint insert_child (n : node) (l : list node) : list node :=
  match l with
  | [] => [n]
  | k :: l' =>
      if String.leb (name n) (name k) then n :: l else k :: insert_child n l'
  end.

(** [os.Remove]. *)
Fixpoint remove (n : node) (p : list string) : option node :=
  match p with
  | [] => None
  | c :: p' =>
      match n with
      | File _ _ _ => None
      | Dir d r w kids =>
          match p' with
          | [] => if w then option_map (Dir d r w) (remove_child c kids)
                  else None
          | _ :: _ =>
              option_map (Dir d r w) (map_child c (fun k => remove k p') kids)
          end
      end
  end.

(** [os.Create] followed by writing [data]; also [os.WriteFile]. *)
Fixpoint write (n : node) (p : list string) (data : string) : option node :=
  match p with
  | [] => None
  | c :: p' =>
      match n with
      | File _ _ _ => None
      | Dir d r w kids =>
          match p' with
          | [] =>
              match find_child c kids with
              | Some (File _ _ false) =>
                  option_map (Dir d r w)
                    (map_child c (fun _ => Some (File c data false)) kids)
              | Some _ => None
              | None =>
                  if w then Some (Dir d r w (insert_child (File c data false) kids))
                  else None
              end
          | _ :: _ =>
              option_map (Dir d r w)
                (map_child c (fun k => write k p' data) kids)
          end
      end
  end.

(** [os.MkdirAll]: nothing to do where the directory exists, an error
    where a file is in the way. *)
Fixpoint mkdirAll (n : node) (p : list string) : option node :=
  match p with
  | [] => if isDir n then Some n else None
  | c :: p' =>
      match n with
      | File _ _ _ => None
      | Dir d r w kids =>
          match find_child c kids with
          | Some _ =>
              option_map (Dir d r w)
                (map_child c (fun k => mkdirAll k p') kids)
          | None =>
              if w then
                option_map (fun k => Dir d r w (insert_child k kids))
                  (mkdirAll (Dir c true true []) p')
              else None
          end
      end
  end.

(** [os.Stat]: the empty path names nothing. *)
Definition stat (os : GOOS) (root : node) (path : string) : option node :=
  if path =? "" then None else lookup root (Filepath.elements os path).

(** *** [filepath.Glob] *)

(** The names of the directory [dir] that match [file], each joined to
    [dir]; nothing where [dir] is no directory or cannot be listed. *)
Definition glob1 (os : GOOS) (root : node) (dir file : string) : list string :=
  match stat os root dir with
  | Some (Dir _ true _ kids) =>
      map (fun k => Filepath.Join os [dir; name k])
          (filter (fun k => Filepath.Match file (name k)) kids)
  | _ => []
  end.

Definition dir_string (os : GOOS) (pieces : list string) : string :=
  match pieces with
  | [] => "."
  | [""] => Filepath.Separator os
  | _ => String.concat (Filepath.Separator os) pieces
  end.

(** The pieces of the pattern come last first; the directory part is
    expanded first where it has a star itself. *)
Fixpoint glob_pieces (os : GOOS) (root : node) (rps : list string)
  : list string :=
  match rps with
  | [] => []
  | file :: rdir =>
      if existsb Filepath.hasMeta rdir
      then flat_map (fun d => glob1 os root d file) (glob_pieces os root rdir)
      else glob1 os root (dir_string os (rev rdir)) file
  end.

Definition Glob (os : GOOS) (root : node) (pattern : string) : list string :=
  if Filepath.hasMeta pattern
  then glob_pieces os root (rev (Strs.split_by (Filepath.is_sep os) pattern))
  else match stat os root pattern with
       | Some _ => [pattern]
       | None => []
       end.

(** *** [filepath.Walk] *)

Record FileInfo := { Name : string; IsDir : bool }.

Definition info (n : node) : FileInfo :=
  {| Name := name n; IsDir := isDir n |}.

(** What a [WalkFunc] returns: [nil] or [filepath.SkipDir]. *)
Inductive WalkErr := WalkNil | SkipDir.

Section Walking.
Variable os : GOOS.
Variable S : Type.
(** [fn path info err]: [err] says that the entry could not be read. *)
Variable fn : string -> FileInfo -> bool -> S -> S * WalkErr.

(** The recursion of [filepath.walk]: the function is called on the
    entry; a directory that could not be listed, or for which the
    function asked to skip, is left; [SkipDir] from a file ends the
    enumeration of the directory that holds it, [SkipDir] from a
    directory only skips that directory. *)
Fixpoint walk (path : string) (n : node) (st : S) {struct n} : S * WalkErr :=
  match n with
  | File _ _ _ => fn path (info n) false st
  | Dir _ r _ kids =>
      let '(st1, e) := fn path (info n) (negb r) st in
      if negb r then (st1, e)
      else
        match e with
        | SkipDir => (st1, SkipDir)
        | WalkNil =>
            (fix over (l : list node) (st : S) {struct l} : S * WalkErr :=
               match l with
               | [] => (st, WalkNil)
               | k :: l' =>
                   let '(st2, e2) :=
                     walk (Filepath.Join os [path; name k]) k st in
                   match e2 with
                   | WalkNil => over l' st2
                   | SkipDir =>
                       if isDir k then over l' st2 else (st2, SkipDir)
                   end
               end) kids st1
        end
  end.

(** [filepath.Walk root fn]: where the root cannot be found the
    function is called once, with the error. *)
Definition Walk (tree : node) (root : string) (st : S) : S :=
  match stat os tree root with
  | None => fst (fn root {| Name := ""; IsDir := false |} true st)
  | Some n => fst (walk root n st)
  end.
End Walking.

End FS.

(* ================================================================= *)
(** ** The world of a run                                             *)
(* ================================================================= *)

(** [type Config struct]: the four fields that the pipeline reads (the
    record of [config.go] has two more, for the deployment of JSON files,
    which none of the embedded functions reads). *)
Record Config := mkConfig {
  SourceDir : string;
  TargetDir : string;
  ExtensionFolder : string;
  JavaPath : string
}.

Definition emptyConfig : Config := mkConfig "" "" "" "".

Definition set_SourceDir (s : string) (c : Config) : Config :=
  mkConfig s (TargetDir c) (ExtensionFolder c) (JavaPath c).
Definition set_TargetDir (s : string) (c : Config) : Config :=
  mkConfig (SourceDir c) s (ExtensionFolder c) (JavaPath c).
Definition set_ExtensionFolder (s : string) (c : Config) : Config :=
  mkConfig (SourceDir c) (TargetDir c) s (JavaPath c).
Definition set_JavaPath (s : string) (c : Config) : Config :=
  mkConfig (SourceDir c) (TargetDir c) (ExtensionFolder c) s.

(** What a run does that can be observed from outside. *)
Inductive event : Type :=
| Out (format : string) (args : list string)
    (** [fmt.Print], [fmt.Println], [fmt.Printf] *)
| Run (name : string) (args : list string) (dir : string)
    (** an external program is started, in the directory [dir] *)
| Sleep (seconds : nat)
    (** [time.Sleep] *)
| WriteConfig (c : Config)
    (** [os.WriteFile] of the configuration file *)
| RemoveLater (seconds : nat) (path : string).
    (** the goroutine that removes the wrapper script after a delay *)

(** The state of the machine.  [log] has the latest event first.
    [programs] answers for a program that only reports or acts on
    processes (the version of the compiler, [netstat], [wmic], [tasklist],
    [taskkill], the new terminal): whether it ended without error, and its
    output, given the run so far.  [builders] answers for the compiler and
    the packager, which also change the file tree. *)
Record World := mkWorld {
  goos : GOOS;
  JAVA_HOME : string;
  lookPath_javac : option string;
  userHomeDir : option string;
  stdin : list string;
  fs : FS.node;
  saved : option Config;
  saved_writable : bool;
  programs : list event -> string -> list string -> bool * string;
  builders : list event -> string -> list string -> string -> FS.node
             -> (bool * string) * FS.node;
  log : list event;
  smartFoxCmdPid : string
}.

Definition with_stdin (l : list string) (w : World) : World :=
  mkWorld (goos w) (JAVA_HOME w) (lookPath_javac w) (userHomeDir w) l (fs w)
    (saved w) (saved_writable w) (programs w) (builders w) (log w)
    (smartFoxCmdPid w).
Definition with_fs (t : FS.node) (w : World) : World :=
  mkWorld (goos w) (JAVA_HOME w) (lookPath_javac w) (userHomeDir w) (stdin w) t
    (saved w) (saved_writable w) (programs w) (builders w) (log w)
    (smartFoxCmdPid w).
Definition with_saved (c : option Config) (w : World) : World :=
  mkWorld (goos w) (JAVA_HOME w) (lookPath_javac w) (userHomeDir w) (stdin w)
    (fs w) c (saved_writable w) (programs w) (builders w) (log w)
    (smartFoxCmdPid w).
Definition with_log (l : list event) (w : World) : World :=
  mkWorld (goos w) (JAVA_HOME w) (lookPath_javac w) (userHomeDir w) (stdin w)
    (fs w) (saved w) (saved_writable w) (programs w) (builders w) l
    (smartFoxCmdPid w).
Definition with_pid (p : string) (w : World) : World :=
  mkWorld (goos w) (JAVA_HOME w) (lookPath_javac w) (userHomeDir w) (stdin w)
    (fs w) (saved w) (saved_writable w) (programs w) (builders w) (log w) p.

(** *** Two small monads: a computation that ends, and one that may not *)

Definition IO (A : Type) : Type := World -> A * World.

Definition ret {A} (a : A) : IO A := fun w => (a, w).

Definition bind {A B} (m : IO A) (k : A -> IO B) : IO B :=
  fun w => let '(a, w1) := m w in k a w1.

(** [None]: the computation never returns. *)
Definition IOd (A : Type) : Type := World -> option (A * World).

Definition retd {A} (a : A) : IOd A := fun w => Some (a, w).

Definition bindd {A B} (m : IOd A) (k : A -> IOd B) : IOd B :=
  fun w => match m w with
           | Some (a, w1) => k a w1
           | None => None
           end.

Definition lift {A} (m : IO A) : IOd A := fun w => Some (m w).

Declare Scope io_scope.
Delimit Scope io_scope with io.
Notation "x <- m ;; k" := (bind m (fun x => k))
  (at level 61, m at next level, right associativity) : io_scope.
Notation "m ;; k" := (bind m (fun _ => k))
  (at level 61, right associativity) : io_scope.
Notation "x <~ m ;; k" := (bindd m (fun x => k))
  (at level 61, m at next level, right associativity) : io_scope.
Notation "m ;;; k" := (bindd m (fun _ => k))
  (at level 61, right associativity) : io_scope.
Open Scope io_scope.

Definition gets {A} (f : World -> A) : IO A := fun w => (f w, w).

Definition emit (e : event) : IO unit :=
  fun w => (tt, with_log (e :: log w) w).

Definition Println (s : string) : IO unit := emit (Out s []).
Definition Print (s : string) : IO unit := emit (Out s []).
Definition Printf (format : string) (args : list string) : IO unit :=
  emit (Out format args).

(** [reader.ReadString('\n')] on the console: the next line; the empty
    string, again and again, once the input has ended. *)
Definition ReadString : IO string :=
  fun w => match stdin w with
           | [] => ("", w)
           | l :: rest => (l, with_stdin rest w)
           end.

(** A [for] loop that reads one line in each round and leaves through
    [break] or [return]: [body line] is one round on the line read, and
    ends the loop with [Some].  At the end of the input every round reads
    the empty line, so that a round that does not leave then never will. *)
Fixpoint rounds {A} (body : string -> IO (option A)) (lines : list string)
  (w : World) : option (A * World) :=
  match lines with
  | [] =>
      match body "" (with_stdin [] w) with
      | (Some a, w1) => Some (a, w1)
      | (None, _) => None
      end
  | l :: rest =>
      match body l (with_stdin rest w) with
      | (Some a, w1) => Some (a, w1)
      | (None, w1) => rounds body rest w1
      end
  end.

Definition read_loop {A} (body : string -> IO (option A)) : IOd A :=
  fun w => rounds body (stdin w) w.

(** *** The operating system *)

Definition Stat (w : World) (path : string) : option FS.node :=
  FS.stat (goos w) (fs w) path.

(** [_, err := os.Stat(path); err == nil]. *)
Definition exists_ (w : World) (path : string) : bool :=
  match Stat w path with Some _ => true | None => false end.

Definition Join (w : World) (elems : list string) : string :=
  Filepath.Join (goos w) elems.

Definition Glob (w : World) (pattern : string) : list string :=
  FS.Glob (goos w) (fs w) pattern.

(** [os.Remove]: [true] when there was no error. *)
Definition os_Remove (path : string) : IO bool :=
  fun w =>
    if path =? "" then (false, w)
    else match FS.remove (fs w) (Filepath.elements (goos w) path) with
         | Some t => (true, with_fs t w)
         | None => (false, w)
         end.

Definition os_MkdirAll (path : string) : IO bool :=
  fun w =>
    if path =? "" then (false, w)
    else match FS.mkdirAll (fs w) (Filepath.elements (goos w) path) with
         | Some t => (true, with_fs t w)
         | None => (false, w)
         end.

Definition os_WriteFile (path data : string) : IO bool :=
  fun w =>
    if path =? "" then (false, w)
    else match FS.write (fs w) (Filepath.elements (goos w) path) data with
         | Some t => (true, with_fs t w)
         | None => (false, w)
         end.

(** [exec.Command(name, args...)] run to its end ([Run], [Output],
    [CombinedOutput]) or started ([Start]): no error, and the text. *)
Definition exec (name : string) (args : list string) (dir : string)
  : IO (bool * string) :=
  fun w => (programs w (log w) name args,
            with_log (Run name args dir :: log w) w).

(** The same for the compiler and the packager. *)
Definition exec_build (name : string) (args : list string) (dir : string)
  : IO (bool * string) :=
  fun w =>
    let '(r, t) := builders w (log w) name args dir (fs w) in
    (r, with_fs t (with_log (Run name args dir :: log w) w)).

Definition itoa (n : nat) : string := NilZero.string_of_uint (Nat.to_uint n).

(** The text of an [error] value is not modelled. *)
Definition err_text : string := "error".

Notation "' pat <- m ;; k" := (bind m (fun pat => k))
  (at level 61, pat pattern, m at next level, right associativity) : io_scope.
Notation "' pat <~ m ;; k" := (bindd m (fun pat => k))
  (at level 61, pat pattern, m at next level, right associativity) : io_scope.

(* ================================================================= *)
(** ** The program                                                    *)
(* ================================================================= *)

Definition configFile : string := "sfdeploy_config.json".

(** [loadConfig]: the configuration file is the field [saved] of the
    world, [None] when the file is missing or cannot be decoded. *)
Definition loadConfig : IO (Config * bool) :=
  fun w => match saved w with
           | Some c => ((c, true), w)
           | None => ((emptyConfig, false), w)
           end.

(** [saveConfig]: an error of the write is ignored. *)
Definition saveConfig (config : Config) : IO unit :=
  fun w =>
    let w1 := with_log (WriteConfig config :: log w) w in
    (tt, if saved_writable w then with_saved (Some config) w1 else w1).

(** [askYesNo]. *)
Definition askYesNo (prompt : string) : IOd bool :=
  read_loop (fun line =>
    Print prompt ;;
    let response := Strs.ToLower (Strs.TrimSpace line) in
    if (response =? "y") || (response =? "yes") then ret (Some true)
    else if (response =? "n") || (response =? "no") then ret (Some false)
    else Println "Please enter 'y' or 'n'" ;; ret None).

(** The [WalkFunc] of [hasJavaFiles]; the state is the variable [found]. *)
Definition hasJavaFiles_fn (path : string) (info : FS.FileInfo) (err : bool)
  (found : bool) : bool * FS.WalkErr :=
  if err then (found, FS.WalkNil)
  else if Strs.HasSuffix (Strs.ToLower (FS.Name info)) ".java"
       then (true, FS.SkipDir)
       else (found, FS.WalkNil).

(** [hasJavaFiles]. *)
Definition hasJavaFiles (w : World) (dir : string) : bool :=
  FS.Walk (goos w) hasJavaFiles_fn (fs w) dir false.

(** [validateSourceDir]. *)
Definition validateSourceDir (w : World) (dir : string) : bool :=
  if negb (exists_ w dir) then false
  else
    let srcDir := Join w [dir; "src"] in
    if negb (exists_ w srcDir) then false
    else hasJavaFiles w srcDir.

(** [validateTargetDir]. *)
Definition validateTargetDir (dir : string) : IO bool :=
  w <- gets (fun w => w) ;;
  let sfsDir := Join w [dir; "SFS2X"] in
  if negb (exists_ w sfsDir) then ret false
  else
    let startScript := Join w [sfsDir; "sfs2x.bat"] in
    if negb (exists_ w startScript) then ret false
    else
      let libDir := Join w [sfsDir; "lib"] in
      let sfs2xJar := Join w [libDir; "sfs2x.jar"] in
      let sfs2xCoreJar := Join w [libDir; "sfs2x-core.jar"] in
      (if negb (exists_ w sfs2xJar)
       then Printf "Warning: sfs2x.jar not found at %s\n" [sfs2xJar]
       else ret tt) ;;
      (if negb (exists_ w sfs2xCoreJar)
       then Printf "Warning: sfs2x-core.jar not found at %s\n" [sfs2xCoreJar]
       else ret tt) ;;
      ret true.

(** [isJava11]. *)
Definition isJava11 (javacPath : string) : IO bool :=
  '(ok, outputStr) <- exec javacPath ["-version"] "" ;;
  if negb ok then ret false
  else ret (Strs.Contains outputStr "11." || Strs.Contains outputStr "javac 11").

Definition exe (w : World) (path : string) : string :=
  if is_windows (goos w) then (path ++ ".exe")%string else path.

(** The inner loop of the third strategy of [findJava11Path]: the matches
    of one pattern, in order; [Some] is the [return] of the function. *)
Fixpoint java11_among (matches : list string) : IO (option string) :=
  match matches with
  | [] => ret None
  | path :: rest =>
      w <- gets (fun w => w) ;;
      if exists_ w path then
        ok <- isJava11 path ;;
        if ok then ret (Some (Filepath.Dir (goos w) path))
        else java11_among rest
      else java11_among rest
  end.

(** The outer loop: the patterns, in order. *)
Fixpoint java11_in_patterns (patterns : list string) : IO (option string) :=
  match patterns with
  | [] => ret None
  | pattern :: rest =>
      w <- gets (fun w => w) ;;
      r <- java11_among (Glob w pattern) ;;
      match r with
      | Some d => ret (Some d)
      | None => java11_in_patterns rest
      end
  end.

Definition commonJavaPaths : list string :=
  [ "C:\Program Files\Eclipse Adoptium\jdk-11*\bin\javac.exe";
    "C:\Program Files\Java\jdk-11*\bin\javac.exe";
    "C:\Program Files\OpenJDK\jdk-11*\bin\javac.exe";
    "C:\Program Files (x86)\Eclipse Adoptium\jdk-11*\bin\javac.exe" ].

(** First strategy: [JAVA_HOME]. *)
Definition java11_from_home : IO (option string) :=
  w <- gets (fun w => w) ;;
  let javaHome := JAVA_HOME w in
  if negb (javaHome =? "") then
    let javacPath := exe w (Join w [javaHome; "bin"; "javac"]) in
    if exists_ w javacPath then
      ok <- isJava11 javacPath ;;
      if ok then ret (Some (Filepath.Dir (goos w) javacPath)) else ret None
    else ret None
  else ret None.

(** Second strategy: [exec.LookPath("javac")]. *)
Definition java11_from_path : IO (option string) :=
  w <- gets (fun w => w) ;;
  match lookPath_javac w with
  | Some path =>
      ok <- isJava11 path ;;
      if ok then ret (Some (Filepath.Dir (goos w) path)) else ret None
  | None => ret None
  end.

(** Third strategy: the well-known places, on Windows only. *)
Definition java11_from_common : IO (option string) :=
  w <- gets (fun w => w) ;;
  if is_windows (goos w) then java11_in_patterns commonJavaPaths
  else ret None.

(** Fourth strategy: the operator names the directory. *)
Definition java11_from_prompt : IO string :=
  Println "Java 11 not found automatically" ;;
  Print "Please enter the path to Java 11 bin directory (or press Enter to skip): " ;;
  line <- ReadString ;;
  let userPath := Strs.TrimSpace line in
  w <- gets (fun w => w) ;;
  if negb (userPath =? "") then
    let javacPath := exe w (Join w [userPath; "javac"]) in
    if exists_ w javacPath then ret userPath else ret ""
  else ret "".

(** [findJava11Path]. *)
Definition findJava11Path : IO string :=
  r1 <- java11_from_home ;;
  match r1 with
  | Some d => ret d
  | None =>
      r2 <- java11_from_path ;;
      match r2 with
      | Some d => ret d
      | None =>
          r3 <- java11_from_common ;;
          match r3 with
          | Some d => ret d
          | None => java11_from_prompt
          end
      end
  end.

(** A loop of [findSmartFoxServer]: the first candidate that is a valid
    target. *)
Fixpoint first_valid_target (paths : list string) : IO (option string) :=
  match paths with
  | [] => ret None
  | path :: rest =>
      ok <- validateTargetDir path ;;
      if ok then ret (Some path) else first_valid_target rest
  end.

(** The candidates of the search over the drive letters, in the order of
    the two nested loops. *)
Definition driveCandidates (w : World) : list string :=
  flat_map (fun drive =>
    flat_map (fun pattern =>
      [ Join w [(drive ++ "\")%string; pattern];
        Join w [(drive ++ "\Program Files")%string; pattern];
        Join w [(drive ++ "\Program Files (x86)")%string; pattern] ])
      ["SmartFoxServer_2X"; "SmartFoxServer"; "SFS2X"])
    ["C:"; "D:"; "E:"; "F:"].

(** [findSmartFoxServer]. *)
Definition findSmartFoxServer : IO string :=
  w <- gets (fun w => w) ;;
  let commonPaths :=
    [ "C:\Users\Slint\SmartFoxServer_2X";
      "C:\SmartFoxServer_2X";
      "C:\Program Files\SmartFoxServer_2X";
      "C:\Program Files (x86)\SmartFoxServer_2X" ] ++
    match userHomeDir w with
    | Some userHome =>
        [ Join w [userHome; "SmartFoxServer_2X"];
          Join w [userHome; "SmartFoxServer"];
          Join w [userHome; "Desktop"; "SmartFoxServer_2X"];
          Join w [userHome; "Downloads"; "SmartFoxServer_2X"] ]
    | None => []
    end in
  r <- first_valid_target commonPaths ;;
  match r with
  | Some path => ret path
  | None =>
      if is_windows (goos w) then
        r2 <- first_valid_target (driveCandidates w) ;;
        match r2 with
        | Some path => ret path
        | None => ret ""
        end
      else ret ""
  end.

(** *** Phase 1: setup *)

(** The test of the extension loop on the trimmed line. *)
Definition validExtensionFolder (s : string) : bool :=
  negb (s =? "") && negb (Strs.Contains s ":") &&
  negb (Strs.Contains s "\") && negb (Strs.Contains s "/").

(** One round of the loop that asks for the source directory. *)
Definition source_round (line : string) : IO (option string) :=
  Print "Enter source directory (SmartFox project): " ;;
  let sourceDir := Strs.TrimSpace line in
  w <- gets (fun w => w) ;;
  if validateSourceDir w sourceDir then
    Printf "Valid source directory: %s\n" [sourceDir] ;;
    ret (Some sourceDir)
  else
    Printf "Invalid source directory: %s\n" [sourceDir] ;;
    Println "   Please ensure the directory contains 'src' folder with .java files" ;;
    ret None.

(** One round of the loop that asks for the target directory. *)
Definition target_round (line : string) : IO (option string) :=
  Print "Enter target directory (SmartFox server): " ;;
  let targetDir := Strs.TrimSpace line in
  ok <- validateTargetDir targetDir ;;
  if ok then
    Printf "Valid target directory: %s\n" [targetDir] ;;
    ret (Some targetDir)
  else
    Printf "Invalid target directory: %s\n" [targetDir] ;;
    Println "   Please ensure the directory contains 'SFS2X/sfs2x.bat' and 'SFS2X/lib/sfs2x.jar'" ;;
    ret None.

(** One round of the loop that asks for the extension folder. *)
Definition extension_round (line : string) : IO (option string) :=
  Print "Enter extension folder name (e.g., SFServer, MyExtension): " ;;
  let extensionFolder := Strs.TrimSpace line in
  if validExtensionFolder extensionFolder then
    Printf "Valid extension folder: %s\n" [extensionFolder] ;;
    ret (Some extensionFolder)
  else
    Println "Invalid extension folder name" ;;
    Println "   Please enter a simple folder name (no paths, colons, or slashes)" ;;
    ret None.

(** The part of [setupDirectories] that asks the operator: the same text
    in both sources, from the first loop to the end of the function. *)
Definition collectConfig (config : Config) : IOd (bool * Config) :=
  sourceDir <~ read_loop source_round ;;
  let config := set_SourceDir sourceDir config in
  autoDetectedTarget <~ lift findSmartFoxServer ;;
  config <~
    (if negb (autoDetectedTarget =? "") then
       lift (Printf "Auto-detected SmartFox server: %s\n" [autoDetectedTarget]) ;;;
       yes <~ askYesNo "Do you want to use this SmartFox server installation? (y/n): " ;;
       if yes then
         lift (Printf "Using auto-detected target directory: %s\n"
                 [autoDetectedTarget]) ;;;
         retd (set_TargetDir autoDetectedTarget config)
       else retd (set_TargetDir "" config)
     else retd config) ;;
  config <~
    (if TargetDir config =? "" then
       targetDir <~ read_loop target_round ;;
       retd (set_TargetDir targetDir config)
     else retd config) ;;
  extensionFolder <~ read_loop extension_round ;;
  let config := set_ExtensionFolder extensionFolder config in
  javaPath <~ lift findJava11Path ;;
  let config := set_JavaPath javaPath config in
  if javaPath =? "" then
    lift (Println "Java 11 not found") ;;;
    retd (false, config)
  else
    lift (Printf "Java 11: %s\n" [javaPath] ;;
          Println "" ;;
          saveConfig config ;;
          Println "Configuration saved for next time" ;;
          Println "") ;;;
    retd (true, config).

(** The first block of [setupDirectories] in the monolithic source: the
    configuration of the last run, if the operator wants it.  [Some b] is
    [return b]; with [None] the function goes on. *)
Definition reusePrevious (config : Config) : IOd (option bool * Config) :=
  '(savedConfig, found) <~ lift loadConfig ;;
  if found then
    lift (Println "Found previous configuration:" ;;
          Printf "   Source: %s\n" [SourceDir savedConfig] ;;
          Printf "   Target: %s\n" [TargetDir savedConfig] ;;
          Printf "   Extension: %s\n" [ExtensionFolder savedConfig] ;;
          Println "") ;;;
    yes <~ askYesNo "Do you want to use the previous configuration? (y/n): " ;;
    if yes then
      let config := savedConfig in
      w <~ lift (gets (fun w => w)) ;;
      if validateSourceDir w (SourceDir config) then
        okT <~ lift (validateTargetDir (TargetDir config)) ;;
        if okT then
          javaPath <~ lift findJava11Path ;;
          let config := set_JavaPath javaPath config in
          if javaPath =? "" then
            lift (Println "Java 11 not found") ;;;
            retd (Some false, config)
          else
            lift (Printf "Using previous configuration\n" [] ;;
                  Printf "Java 11: %s\n" [javaPath] ;;
                  Println "") ;;;
            retd (Some true, config)
        else
          lift (Println "Previous paths are no longer valid, please enter new ones") ;;;
          retd (None, config)
      else
        lift (Println "Previous paths are no longer valid, please enter new ones") ;;;
        retd (None, config)
    else retd (None, config)
  else retd (None, config).

(** [setupDirectories] (monolithic source). *)
Definition setupDirectories (config : Config) : IOd (bool * Config) :=
  lift (Println "Phase 1: Directory Setup") ;;;
  '(returned, config) <~ reusePrevious config ;;
  match returned with
  | Some b => retd (b, config)
  | None => collectConfig config
  end.

Module ConfigGo.

(** The first block of [setupDirectories] in [config.go]: the saved
    configuration is taken without a question. *)
Definition reusePrevious (config : Config) : IOd (option bool * Config) :=
  '(savedConfig, found) <~ lift loadConfig ;;
  if found then
    let config := savedConfig in
    w <~ lift (gets (fun w => w)) ;;
    if validateSourceDir w (SourceDir config) then
      okT <~ lift (validateTargetDir (TargetDir config)) ;;
      if okT then
        javaPath <~ lift findJava11Path ;;
        let config := set_JavaPath javaPath config in
        if javaPath =? "" then
          lift (Println "Java 11 not found") ;;;
          retd (Some false, config)
        else
          lift (Printf "Source: %s\n" [SourceDir config] ;;
                Printf "Target: %s\n" [TargetDir config] ;;
                Printf "Extension: %s\n" [ExtensionFolder config] ;;
                Printf "Java 11: %s\n" [javaPath] ;;
                Println "") ;;;
          retd (Some true, config)
      else
        lift (Println "Config paths are no longer valid, please enter new ones") ;;;
        retd (None, config)
    else
      lift (Println "Config paths are no longer valid, please enter new ones") ;;;
      retd (None, config)
  else retd (None, config).

(** [setupDirectories] ([config.go]). *)
Definition setupDirectories (config : Config) : IOd (bool * Config) :=
  lift (Println "Phase 1: Directory Setup") ;;;
  '(returned, config) <~ reusePrevious config ;;
  match returned with
  | Some b => retd (b, config)
  | None => collectConfig config
  end.

End ConfigGo.

(** *** Phase 2: build *)

(** The [WalkFunc] of [cleanClassFiles]; the state is the world. *)
Definition cleanClassFiles_fn (path : string) (info : FS.FileInfo) (err : bool)
  (w : World) : World * FS.WalkErr :=
  if err then (w, FS.WalkNil)
  else if Strs.HasSuffix (Strs.ToLower (FS.Name info)) ".class"
       then (snd (os_Remove path w), FS.WalkNil)
       else (w, FS.WalkNil).

(** [cleanClassFiles]. *)
Definition cleanClassFiles (srcDir : string) : IO unit :=
  fun w => (tt, FS.Walk (goos w) cleanClassFiles_fn (fs w) srcDir w).

(** The [WalkFunc] of [findJavaFiles]; the state is the slice. *)
Definition findJavaFiles_fn (path : string) (info : FS.FileInfo) (err : bool)
  (javaFiles : list string) : list string * FS.WalkErr :=
  if err then (javaFiles, FS.WalkNil)
  else if Strs.HasSuffix (Strs.ToLower (FS.Name info)) ".java"
       then (javaFiles ++ [path], FS.WalkNil)
       else (javaFiles, FS.WalkNil).

(** [findJavaFiles]. *)
Definition findJavaFiles (w : World) (srcDir : string) : list string :=
  FS.Walk (goos w) findJavaFiles_fn (fs w) srcDir [].

Definition requiredJars : list string :=
  ["sfs2x.jar"; "sfs2x-core.jar"; "sfs2x-api.jar"; "slf4j-api*.jar"; "logback*.jar"].

(** [buildClasspath]. *)
Definition buildClasspath (serverLibDir : string) : IO string :=
  w <- gets (fun w => w) ;;
  let jarFiles := Glob w (Join w [serverLibDir; "*.jar"]) in
  let classpathParts := jarFiles in
  let classpathParts :=
    if (length classpathParts =? 0)%nat
    then flat_map (fun jarPattern => Glob w (Join w [serverLibDir; jarPattern]))
           requiredJars
    else classpathParts in
  if (length classpathParts =? 0)%nat then
    Printf "Warning: No JAR files found in %s\n" [serverLibDir] ;;
    ret "."
  else
    let separator := if is_windows (goos w) then ";" else ":" in
    ret (Strs.Join classpathParts separator).

(** [buildProject]. *)
Definition buildProject (config : Config) : IO bool :=
  Println "Phase 2: Building Project" ;;
  w0 <- gets (fun w => w) ;;
  let srcDir := Join w0 [SourceDir config; "src"] in
  let serverLibDir := Join w0 [TargetDir config; "SFS2X"; "lib"] in
  Println "Cleaning old class files..." ;;
  cleanClassFiles srcDir ;;
  Println "Compiling Java files..." ;;
  javaFiles <- gets (fun w => findJavaFiles w srcDir) ;;
  if (length javaFiles =? 0)%nat then
    Println "No Java files found" ;;
    ret false
  else
    Printf "Found %d Java files\n" [itoa (length javaFiles)] ;;
    classpath <- buildClasspath serverLibDir ;;
    let javacPath := exe w0 (Join w0 [JavaPath config; "javac"]) in
    let args := ["-cp"; classpath; "-d"; srcDir] ++ javaFiles in
    '(ok, output) <- exec_build javacPath args srcDir ;;
    if negb ok then
      Printf "Compilation failed: %s\n" [output] ;;
      ret false
    else
      Println "Compilation successful" ;;
      Println "Creating JAR file..." ;;
      let jarPath := exe w0 (Join w0 [JavaPath config; "jar"]) in
      let jarFile := Join w0 [SourceDir config; "ServerExtension.jar"] in
      '(ok, output) <- exec_build jarPath ["cf"; jarFile; "."] srcDir ;;
      if negb ok then
        Printf "JAR creation failed: %s\n" [output] ;;
        ret false
      else
        Println "JAR file created successfully" ;;
        Println "" ;;
        ret true.

(** *** Phase 3: deploy *)

Definition line_feed : ascii := "010"%char.

(** The loop of [killPort9933] over the lines of the listing. *)
Fixpoint kill_listeners (lines : list string) : IO unit :=
  match lines with
  | [] => ret tt
  | line :: rest =>
      (if Strs.Contains line ":9933" && Strs.Contains line "LISTENING" then
         let parts := Strs.Fields line in
         if (5 <=? length parts)%nat then
           let pid := last parts "" in
           Printf "Killing process %s using port 9933\n" [pid] ;;
           _ <- exec "taskkill" ["/PID"; pid; "/F"] "" ;;
           ret tt
         else ret tt
       else ret tt) ;;
      kill_listeners rest
  end.

(** [killPort9933]. *)
Definition killPort9933 : IO unit :=
  w <- gets (fun w => w) ;;
  if negb (is_windows (goos w)) then ret tt
  else
    '(ok, output) <- exec "netstat" ["-ano"] "" ;;
    if negb ok then ret tt
    else kill_listeners (Strs.Split output line_feed).

Definition set_smartFoxCmdPid (p : string) : IO unit :=
  fun w => (tt, with_pid p w).

(** The inner loop of [findAndStoreSmartFoxCmdWindow], over the lines of
    the connection listing: [true] is the [return] of the function,
    [false] the end of the loop (also by [break]). *)
Fixpoint scan_netstat (javaPid parentPid : string) (netstatLines : list string)
  : IO bool :=
  match netstatLines with
  | [] => ret false
  | netLine :: rest =>
      if Strs.Contains netLine ":9933" && Strs.Contains netLine "LISTENING"
         && Strs.Contains netLine javaPid then
        Printf "Found SmartFox Java process PID: %s with parent: %s\n"
          [javaPid; parentPid] ;;
        '(ok, parentOutput) <-
          exec "tasklist" ["/fi"; ("PID eq " ++ parentPid)%string; "/fo"; "csv"] "" ;;
        if ok && Strs.Contains parentOutput "cmd.exe" then
          set_smartFoxCmdPid parentPid ;;
          Printf "Found SmartFox CMD window PID: %s (parent of Java process)\n"
            [parentPid] ;;
          ret true
        else ret false
      else scan_netstat javaPid parentPid rest
  end.

(** The outer loop, over the lines of the process listing. *)
Fixpoint scan_java (javaLines : list string) : IO bool :=
  match javaLines with
  | [] => ret false
  | javaLine :: rest =>
      returned <-
        (if Strs.Contains javaLine "java.exe" then
           Printf "Found Java process: %s\n" [Strs.TrimSpace javaLine] ;;
           let parts := Strs.Split javaLine ","%char in
           if (3 <=? length parts)%nat then
             let javaPid := Strs.TrimSpace (last parts "") in
             let parentPid := Strs.TrimSpace (nth (length parts - 2) parts "") in
             '(ok, netstatOutput) <- exec "netstat" ["-ano"] "" ;;
             if ok then
               scan_netstat javaPid parentPid (Strs.Split netstatOutput line_feed)
             else ret false
           else ret false
         else ret false) ;;
      if (returned : bool) then ret true else scan_java rest
  end.

(** [findAndStoreSmartFoxCmdWindow]. *)
Definition findAndStoreSmartFoxCmdWindow : IO unit :=
  w <- gets (fun w => w) ;;
  if negb (is_windows (goos w)) then ret tt
  else
    Println "Searching all CMD windows for SmartFox..." ;;
    '(ok, javaOutput) <-
      exec "wmic" ["process"; "where"; "name='java.exe'"; "get";
                   "ProcessId,ParentProcessId,CommandLine"; "/format:csv"] "" ;;
    returned <- (if ok then scan_java (Strs.Split javaOutput line_feed)
                 else ret false) ;;
    if (returned : bool) then ret tt
    else
      pid <- gets smartFoxCmdPid ;;
      if pid =? "" then
        Println "Could not find SmartFox CMD window - will create new one"
      else ret tt.

(** [copyFile]: reading from a directory fails after the destination has
    been created. *)
Definition copyFile (src dst : string) : IO bool :=
  w <- gets (fun w => w) ;;
  match Stat w src with
  | None => ret false
  | Some (FS.File _ data _) => os_WriteFile dst data
  | Some (FS.Dir _ _ _ _) => _ <- os_WriteFile dst "" ;; ret false
  end.

(** The loop of [deployProject] that removes the old archives. *)
Fixpoint remove_old_jars (jarFiles : list string) : IO unit :=
  match jarFiles with
  | [] => ret tt
  | file :: rest =>
      ok <- os_Remove file ;;
      (if negb ok
       then Printf "Warning: Could not remove %s: %v\n" [file; err_text]
       else ret tt) ;;
      remove_old_jars rest
  end.

(** [deployProject]. *)
Definition deployProject (config : Config) : IO bool :=
  Println "Phase 3: Deploying Project" ;;
  w0 <- gets (fun w => w) ;;
  let targetExtDir :=
    Join w0 [TargetDir config; "SFS2X"; "extensions"; ExtensionFolder config] in
  ok <- os_MkdirAll targetExtDir ;;
  if negb ok then
    Printf "Failed to create target directory: %v\n" [err_text] ;;
    ret false
  else
    Printf "Deploying to: %s\n" [targetExtDir] ;;
    findAndStoreSmartFoxCmdWindow ;;
    Println "Killing processes on port 9933..." ;;
    killPort9933 ;;
    Println "Waiting for file locks to release..." ;;
    emit (Sleep 3) ;;
    Println "Removing old JAR files..." ;;
    jarFiles <- gets (fun w => Glob w (Join w [targetExtDir; "*.jar"])) ;;
    remove_old_jars jarFiles ;;
    Println "Copying new JAR file..." ;;
    let sourceJar := Join w0 [SourceDir config; "ServerExtension.jar"] in
    let targetJar := Join w0 [targetExtDir; "ServerExtension.jar"] in
    ok <- copyFile sourceJar targetJar ;;
    if negb ok then
      Printf "Failed to copy JAR file: %v\n" [err_text] ;;
      ret false
    else
      Println "Deployment successful" ;;
      Println "" ;;
      ret true.

(** *** Phase 5: cleanup *)

(** The [WalkFunc] of [cleanupProject]; the state is the world and the
    counter [classFilesRemoved]. *)
Definition cleanup_fn (path : string) (info : FS.FileInfo) (err : bool)
  (st : World * nat) : (World * nat) * FS.WalkErr :=
  if err then (st, FS.WalkNil)
  else if Strs.HasSuffix (Strs.ToLower (FS.Name info)) ".class" then
    let '(ok, w1) := os_Remove path (fst st) in
    if ok then ((w1, S (snd st)), FS.WalkNil) else ((w1, snd st), FS.WalkNil)
  else (st, FS.WalkNil).

(** The walk of [cleanupProject]: the number of entries removed. *)
Definition remove_class_files (srcDir : string) : IO nat :=
  fun w =>
    let '(w1, n) := FS.Walk (goos w) cleanup_fn (fs w) srcDir (w, 0) in
    (n, w1).

(** The loop of [cleanupProject] over the archives of the project root,
    with the counter [jarFilesRemoved]. *)
Fixpoint remove_root_jars (jarFiles : list string) (jarFilesRemoved : nat)
  : IO nat :=
  match jarFiles with
  | [] => ret jarFilesRemoved
  | file :: rest =>
      w <- gets (fun w => w) ;;
      ok <- os_Remove file ;;
      if ok then
        Printf "   Removed: %s\n" [Filepath.Base (goos w) file] ;;
        remove_root_jars rest (S jarFilesRemoved)
      else
        Printf "Warning: Could not remove %s: %v\n"
          [Filepath.Base (goos w) file; err_text] ;;
        remove_root_jars rest jarFilesRemoved
  end.

(** [cleanupProject]. *)
Definition cleanupProject (config : Config) : IO bool :=
  Println "Phase 5: Cleaning Up Project" ;;
  w0 <- gets (fun w => w) ;;
  let srcDir := Join w0 [SourceDir config; "src"] in
  Println "Removing .class files from source directory..." ;;
  classFilesRemoved <- remove_class_files srcDir ;;
  Printf "Removed %d .class files\n" [itoa classFilesRemoved] ;;
  Println "Removing JAR files from project root..." ;;
  jarFiles <- gets (fun w => Glob w (Join w [SourceDir config; "*.jar"])) ;;
  jarFilesRemoved <- remove_root_jars jarFiles 0 ;;
  Printf "Removed %d JAR files\n" [itoa jarFilesRemoved] ;;
  Println "Project cleanup completed" ;;
  Println "" ;;
  ret true.

(** *** Phase 4: restart *)

Definition nl : string := String line_feed "".

(** The double quote. *)
Definition dquote : string := String (ascii_of_nat 34) "".

(** The text of the wrapper script. *)
Definition logContent (sfsDir startScript : string) : string :=
  String.concat nl
    [ "@echo off";
      "title SmartFox Server 2X - Hot Deploy";
      "echo.";
      "echo ========================================";
      "echo   SmartFox Server 2X - Hot Deploy";
      "echo   Starting server with logs...";
      "echo ========================================";
      "echo.";
      ("cd /d " ++ dquote ++ sfsDir ++ dquote)%string;
      ("call " ++ dquote ++ startScript ++ dquote)%string;
      "echo.";
      "echo ========================================";
      "echo   Server stopped. Press any key to close.";
      "echo ========================================";
      "pause";
      "" ].

(** The block of [restartServer] on the window stored by the discovery
    step; [pid] is the value of [smartFoxCmdPid] when the block starts. *)
Definition closeOldWindow (pid : string) : IO unit :=
  if negb (pid =? "") then
    Printf "Checking if stored CMD window PID %s is still alive...\n" [pid] ;;
    '(ok, checkOutput) <-
      exec "tasklist" ["/fi"; ("PID eq " ++ pid)%string; "/fo"; "csv"] "" ;;
    (if ok && Strs.Contains checkOutput "cmd.exe" then
       Println "Found existing SmartFox CMD window" ;;
       Println "Since we need to see logs, creating new CMD window..." ;;
       _ <- exec "taskkill" ["/PID"; pid; "/F"] "" ;;
       Printf "Closed old CMD window PID: %s\n" [pid]
     else ret tt) ;;
    set_smartFoxCmdPid ""
  else ret tt.

(** The rest of [restartServer]: the wrapper script [logBat] is written
    and a new terminal is started on it, in the directory [dir]. *)
Definition openNewWindow (logBat content dir : string) : IO bool :=
  Println "Creating new CMD window for SmartFox server..." ;;
  ok <- os_WriteFile logBat content ;;
  if negb ok then
    Printf "Failed to create log batch file: %v\n" [err_text] ;;
    ret false
  else
    '(ok, _) <- exec "cmd" ["/c"; "start"; "cmd"; "/k"; logBat] dir ;;
    if negb ok then
      Printf "Failed to start server: %v\n" [err_text] ;;
      ret false
    else
      emit (RemoveLater 5 logBat) ;;
      Println "Server started in new CMD window with logs" ;;
      Println "Check the new CMD window for server logs and status" ;;
      Println "" ;;
      ret true.

(** [restartServer]. *)
Definition restartServer (config : Config) : IO bool :=
  Println "Phase 4: Restarting SmartFox Server" ;;
  w0 <- gets (fun w => w) ;;
  let startScript := Join w0 [TargetDir config; "SFS2X"; "sfs2x.bat"] in
  pid <- gets smartFoxCmdPid ;;
  closeOldWindow pid ;;
  let logBat := Join w0 [TargetDir config; "sfs_with_logs.bat"] in
  openNewWindow logBat
    (logContent (Join w0 [TargetDir config; "SFS2X"]) startScript)
    (Filepath.Dir (goos w0) logBat).

(** *** The pipeline *)

Definition success_message : string := "Hot deploy completed successfully!".

(** [main] (monolithic source). *)
Definition main : IOd unit :=
  lift (Println "========================================" ;;
        Println "  SmartFox Hot Deploy CLI Tool" ;;
        Println "========================================" ;;
        Println "") ;;;
  let config := emptyConfig in
  '(ok, config) <~ setupDirectories config ;;
  if negb ok then retd tt
  else
    ok <~ lift (buildProject config) ;;
    if negb ok then retd tt
    else
      ok <~ lift (deployProject config) ;;
      if negb ok then retd tt
      else
        ok <~ lift (restartServer config) ;;
        if negb ok then retd tt
        else
          ok <~ lift (cleanupProject config) ;;
          if negb ok then retd tt
          else
            lift (Println success_message ;;
                  Println "Press Enter to exit..." ;;
                  _ <- ReadString ;;
                  ret tt).

Module MainGo.
Section Handlers.
(** The handlers of [main.go] other than the setup are in files that
    are not part of the sources at hand. *)
Variables buildProject deployProject restartServer cleanupProject
  : Config -> IO bool.

(** [main] ([main.go]). *)
Definition main : IOd unit :=
  lift (Println "====  SmartFox Hot Deploy CLI Tool ====" ;;
        Println "") ;;;
  let config := emptyConfig in
  '(ok, config) <~ ConfigGo.setupDirectories config ;;
  if negb ok then retd tt
  else
    ok <~ lift (buildProject config) ;;
    if negb ok then retd tt
    else
      ok <~ lift (deployProject config) ;;
      if negb ok then retd tt
      else
        ok <~ lift (restartServer config) ;;
        if negb ok then retd tt
        else
          ok <~ lift (cleanupProject config) ;;
          if negb ok then retd tt
          else
            lift (Println success_message ;;
                  Println "Press Enter to exit..." ;;
                  _ <- ReadString ;;
                  ret tt).
End Handlers.
End MainGo.

(* ================================================================= *)
(** ** Reasoning about the embedding                                  *)
(* ================================================================= *)

Unset Implicit Arguments.

(** *** Induction on file trees *)

Fixpoint node_induction (P : FS.node -> Prop)
  (Hfile : forall nm data locked, P (FS.File nm data locked))
  (Hdir : forall nm r w kids, Forall P kids -> P (FS.Dir nm r w kids))
  (n : FS.node) {struct n} : P n :=
  match n with
  | FS.File nm data locked => Hfile nm data locked
  | FS.Dir nm r w kids =>
      Hdir nm r w kids
        ((fix all (l : list FS.node) : Forall P l :=
            match l with
            | [] => Forall_nil P
            | k :: l' =>
                Forall_cons k (node_induction P Hfile Hdir k) (all l')
            end) kids)
  end.

(** A walk keeps what its function keeps. *)
Lemma walk_keeps (os : GOOS) (S X : Type)
  (fn : string -> FS.FileInfo -> bool -> S -> S * FS.WalkErr) (g : S -> X) :
  (forall p i e st, g (fst (fn p i e st)) = g st) ->
  forall n path st, g (fst (FS.walk os fn path n st)) = g st.
Proof.
  intros Hfn n. induction n as [nm data locked | nm r w kids IH] using node_induction;
    intros path st.
  - simpl. apply Hfn.
  - simpl. specialize (Hfn path (FS.info (FS.Dir nm r w kids)) (negb r) st).
    destruct (fn path (FS.info (FS.Dir nm r w kids)) (negb r) st) as [st1 e].
    simpl in Hfn.
    destruct (negb r); [exact Hfn|].
    destruct e; [|exact Hfn].
    rewrite <- Hfn. clear Hfn. revert st1.
    induction IH as [| k l Hk _ IHl]; intros st1; [reflexivity|].
    specialize (Hk (Filepath.Join os [path; FS.name k]) st1).
    destruct (FS.walk os fn (Filepath.Join os [path; FS.name k]) k st1) as [st2 e2].
    simpl in Hk. rewrite <- Hk.
    destruct e2; [apply IHl|].
    destruct (FS.isDir k); [apply IHl | reflexivity].
Qed.

Lemma Walk_keeps (os : GOOS) (S X : Type)
  (fn : string -> FS.FileInfo -> bool -> S -> S * FS.WalkErr) (g : S -> X) :
  (forall p i e st, g (fst (fn p i e st)) = g st) ->
  forall tree root st, g (FS.Walk os fn tree root st) = g st.
Proof.
  intros Hfn tree root st. unfold FS.Walk.
  destruct (FS.stat os tree root); [apply walk_keeps; exact Hfn | apply Hfn].
Qed.

(** *** What a computation leaves unchanged *)

Section Keeping.
Context {X : Type} (f : World -> X).

Definition keeps {A} (m : IO A) : Prop :=
  forall w, f (snd (m w)) = f w.

Definition keepsd {A} (m : IOd A) : Prop :=
  forall w a w1, m w = Some (a, w1) -> f w1 = f w.

Lemma keeps_ret {A} (a : A) : keeps (ret a).
Proof. intros w. reflexivity. Qed.

Lemma keeps_gets {A} (g : World -> A) : keeps (gets g).
Proof. intros w. reflexivity. Qed.

Lemma keeps_bind {A B} (m : IO A) (k : A -> IO B) :
  keeps m -> (forall a, keeps (k a)) -> keeps (bind m k).
Proof.
  intros Hm Hk w. unfold bind. specialize (Hm w).
  destruct (m w) as [a w1]. simpl in Hm. rewrite <- Hm. apply Hk.
Qed.

Lemma keepsd_retd {A} (a : A) : keepsd (retd a).
Proof. intros w a' w1 H. inversion H. reflexivity. Qed.

Lemma keepsd_lift {A} (m : IO A) : keeps m -> keepsd (lift m).
Proof.
  intros Hm w a w1 H. unfold lift in H. specialize (Hm w).
  destruct (m w). inversion H. subst. exact Hm.
Qed.

Lemma keepsd_bindd {A B} (m : IOd A) (k : A -> IOd B) :
  keepsd m -> (forall a, keepsd (k a)) -> keepsd (bindd m k).
Proof.
  intros Hm Hk w b w2 H. unfold bindd in H.
  destruct (m w) as [[a w1]|] eqn:E; [|discriminate].
  rewrite <- (Hm _ _ _ E). exact (Hk _ _ _ _ H).
Qed.

(** The console input is no part of what is kept. *)
Hypothesis f_stdin : forall l w, f (with_stdin l w) = f w.

Lemma keeps_ReadString : keeps ReadString.
Proof.
  intros w. unfold ReadString. destruct (stdin w); [reflexivity|apply f_stdin].
Qed.

Lemma rounds_keeps {A} (body : string -> IO (option A)) :
  (forall line, keeps (body line)) ->
  forall lines w a w1, rounds body lines w = Some (a, w1) -> f w1 = f w.
Proof.
  intros Hb lines. induction lines as [|l rest IH]; intros w a w1 H; simpl in H.
  - specialize (Hb "" (with_stdin [] w)).
    destruct (body "" (with_stdin [] w)) as [[a'|] w'];
      [|discriminate]. inversion H; subst. simpl in Hb.
    rewrite Hb. apply f_stdin.
  - specialize (Hb l (with_stdin rest w)).
    destruct (body l (with_stdin rest w)) as [[a'|] w']; simpl in Hb.
    + inversion H; subst. rewrite Hb. apply f_stdin.
    + rewrite (IH _ _ _ H), Hb. apply f_stdin.
Qed.

Lemma keepsd_read_loop {A} (body : string -> IO (option A)) :
  (forall line, keeps (body line)) -> keepsd (read_loop body).
Proof. intros Hb w a w1 H. unfold read_loop in H. eapply rounds_keeps; eauto. Qed.

End Keeping.

(** *** What is looked at in the log of a run *)

(** The events of a log that [vis] selects, the latest first. *)
Definition shown (vis : event -> bool) (w : World) : list event :=
  filter vis (log w).

(** The five phases, and the first line that each handler prints. *)
Inductive phase := Setup | Build | Deploy | Restart | Cleanup.

Definition all_phases : list phase := [Setup; Build; Deploy; Restart; Cleanup].

Definition banner (p : phase) : string :=
  match p with
  | Setup => "Phase 1: Directory Setup"
  | Build => "Phase 2: Building Project"
  | Deploy => "Phase 3: Deploying Project"
  | Restart => "Phase 4: Restarting SmartFox Server"
  | Cleanup => "Phase 5: Cleaning Up Project"
  end.

(** The marks of a run: the banners of the phases and the final message. *)
Definition is_mark (e : event) : bool :=
  match e with
  | Out format _ =>
      existsb (String.eqb format) (success_message :: map banner all_phases)
  | _ => false
  end.

Definition is_run (e : event) : bool :=
  match e with Run _ _ _ => true | _ => false end.

Definition is_write (e : event) : bool :=
  match e with WriteConfig _ => true | _ => false end.

(** The parts of the world that no function of the program changes. *)
Definition machine (w : World) :=
  (goos w, JAVA_HOME w, lookPath_javac w, userHomeDir w, saved_writable w,
   programs w, builders w).

(** What every helper of the program keeps: the marks and the writes of
    the configuration in the log, and the machine. *)
Definition calm (w : World) :=
  (shown is_mark w, shown is_write w, machine w).

(** What the helpers that only ask and report keep as well: the file
    tree and the configuration file. *)
Definition still (w : World) := (calm w, fs w, saved w).

(** *** Automation for [keeps] *)

Create HintDb keeps.

Ltac keeps_prim :=
  let w := fresh "w" in
  intros w;
  cbv [emit exec exec_build Println Printf Print gets ret bind
       os_Remove os_MkdirAll os_WriteFile saveConfig loadConfig
       set_smartFoxCmdPid ReadString shown machine calm still];
  repeat match goal with
         | |- context [if ?b then _ else _] => destruct b eqn:?
         | |- context [match ?x with _ => _ end] => destruct x eqn:?
         end;
  simpl; try reflexivity; try congruence.

Ltac keeps_step :=
  first
    [ solve [auto with keeps]
    | apply keeps_ret
    | apply keeps_gets
    | progress cbv zeta
    | apply keeps_bind; [|intros]
    | match goal with
      | |- keeps _ (if ?b then _ else _) => destruct b
      | |- keeps _ (match ?x with _ => _ end) => destruct x
      end
    | solve [keeps_prim] ].

Ltac keeps_auto := repeat keeps_step.

Ltac keepsd_step :=
  first
    [ solve [auto with keeps]
    | apply keepsd_retd
    | apply keepsd_lift; keeps_auto
    | apply keepsd_bindd; [|intros]
    | apply keepsd_read_loop; [intros; reflexivity | intros; keeps_auto]
    | match goal with
      | |- keepsd _ (if ?b then _ else _) => destruct b
      | |- keepsd _ (match ?x with _ => _ end) => destruct x
      end
    | solve [auto with keeps] ].

Ltac keepsd_auto := repeat keepsd_step.

(** A computation that keeps a pair keeps its parts. *)
Lemma keeps_pair {X Y A} (f : World -> X) (g : World -> Y) (m : IO A) :
  keeps (fun w => (f w, g w)) m -> keeps f m /\ keeps g m.
Proof.
  intros H. split; intros w; specialize (H w); inversion H; reflexivity.
Qed.

Lemma keepsd_pair {X Y A} (f : World -> X) (g : World -> Y) (m : IOd A) :
  keepsd (fun w => (f w, g w)) m -> keepsd f m /\ keepsd g m.
Proof.
  intros H. split; intros w a w1 E; specialize (H w a w1 E); inversion H;
    reflexivity.
Qed.

Lemma still_calm {A} (m : IO A) : keeps still m -> keeps calm m.
Proof.
  intros H w. specialize (H w). unfold still in H. congruence.
Qed.

Lemma stilld_calm {A} (m : IOd A) : keepsd still m -> keepsd calm m.
Proof.
  intros H w a w1 E. specialize (H w a w1 E). unfold still in H.
  congruence.
Qed.

(** *** The helpers that only ask and report *)

Lemma still_validateTargetDir dir : keeps still (validateTargetDir dir).
Proof. unfold validateTargetDir. keeps_auto. Qed.
#[export] Hint Resolve still_validateTargetDir : keeps.

Lemma still_isJava11 p : keeps still (isJava11 p).
Proof. unfold isJava11. keeps_auto. Qed.
#[export] Hint Resolve still_isJava11 : keeps.

Lemma still_java11_among l : keeps still (java11_among l).
Proof. induction l; simpl; keeps_auto. Qed.
#[export] Hint Resolve still_java11_among : keeps.

Lemma still_java11_in_patterns l : keeps still (java11_in_patterns l).
Proof. induction l; simpl; keeps_auto. Qed.
#[export] Hint Resolve still_java11_in_patterns : keeps.

Lemma still_findJava11Path : keeps still findJava11Path.
Proof.
  unfold findJava11Path, java11_from_home, java11_from_path,
    java11_from_common, java11_from_prompt.
  keeps_auto.
Qed.
#[export] Hint Resolve still_findJava11Path : keeps.

Lemma still_first_valid_target l : keeps still (first_valid_target l).
Proof. induction l; simpl; keeps_auto. Qed.
#[export] Hint Resolve still_first_valid_target : keeps.

Lemma still_findSmartFoxServer : keeps still findSmartFoxServer.
Proof. unfold findSmartFoxServer. keeps_auto. Qed.
#[export] Hint Resolve still_findSmartFoxServer : keeps.

Lemma still_askYesNo prompt :
  is_mark (Out prompt []) = false -> keepsd still (askYesNo prompt).
Proof.
  intros Hp. unfold askYesNo. keepsd_auto.
  intros w. unfold still, calm, shown. simpl log. 
  change (filter is_mark (Out prompt [] :: log w))
    with (if is_mark (Out prompt []) then Out prompt [] :: filter is_mark (log w)
          else filter is_mark (log w)).
  rewrite Hp. reflexivity.
Qed.

Lemma still_source_round line : keeps still (source_round line).
Proof. unfold source_round. keeps_auto. Qed.
#[export] Hint Resolve still_source_round : keeps.

Lemma still_target_round line : keeps still (target_round line).
Proof. unfold target_round. keeps_auto. Qed.
#[export] Hint Resolve still_target_round : keeps.

Lemma still_extension_round line : keeps still (extension_round line).
Proof. unfold extension_round. keeps_auto. Qed.
#[export] Hint Resolve still_extension_round : keeps.

Lemma still_kill_listeners l : keeps still (kill_listeners l).
Proof. induction l; simpl; keeps_auto. Qed.
#[export] Hint Resolve still_kill_listeners : keeps.

Lemma still_killPort9933 : keeps still killPort9933.
Proof. unfold killPort9933. keeps_auto. Qed.
#[export] Hint Resolve still_killPort9933 : keeps.

Lemma still_scan_netstat a b l : keeps still (scan_netstat a b l).
Proof. induction l; simpl; keeps_auto. Qed.
#[export] Hint Resolve still_scan_netstat : keeps.

Lemma still_scan_java l : keeps still (scan_java l).
Proof. induction l; simpl; keeps_auto. Qed.
#[export] Hint Resolve still_scan_java : keeps.

Lemma still_findAndStoreSmartFoxCmdWindow :
  keeps still findAndStoreSmartFoxCmdWindow.
Proof. unfold findAndStoreSmartFoxCmdWindow. keeps_auto. Qed.
#[export] Hint Resolve still_findAndStoreSmartFoxCmdWindow : keeps.

Lemma still_buildClasspath d : keeps still (buildClasspath d).
Proof. unfold buildClasspath. keeps_auto. Qed.
#[export] Hint Resolve still_buildClasspath : keeps.

(** What the collection of a configuration keeps (it writes the
    configuration file). *)
Definition plain (w : World) := (shown is_mark w, machine w, fs w).

Lemma still_plain {A} (m : IO A) : keeps still m -> keeps plain m.
Proof.
  intros H w. specialize (H w). unfold still, calm, plain in *. congruence.
Qed.

Lemma stilld_plain {A} (m : IOd A) : keepsd still m -> keepsd plain m.
Proof.
  intros H w a w1 E. specialize (H w a w1 E).
  unfold still, calm, plain in *. congruence.
Qed.

#[export] Hint Resolve still_calm still_plain stilld_calm stilld_plain : keeps.
#[export] Hint Extern 1 (is_mark _ = false) => reflexivity : keeps.
#[export] Hint Resolve still_askYesNo : keeps.

Lemma plain_saveConfig c : keeps plain (saveConfig c).
Proof.
  intros w. unfold saveConfig. destruct (saved_writable w); reflexivity.
Qed.
#[export] Hint Resolve plain_saveConfig : keeps.

Lemma plain_collectConfig c : keepsd plain (collectConfig c).
Proof.
  unfold collectConfig. keepsd_auto;
    try (intros w; cbv [plain shown machine Println Printf emit]; reflexivity).
Qed.
#[export] Hint Resolve plain_collectConfig : keeps.

Lemma still_reusePrevious c : keepsd still (reusePrevious c).
Proof. unfold reusePrevious. keepsd_auto. Qed.
#[export] Hint Resolve still_reusePrevious : keeps.

Lemma still_reusePrevious_cfg c : keepsd still (ConfigGo.reusePrevious c).
Proof. unfold ConfigGo.reusePrevious. keepsd_auto. Qed.
#[export] Hint Resolve still_reusePrevious_cfg : keeps.

(** *** The walks and loops that remove files *)

Lemma calm_os_Remove p : keeps calm (os_Remove p).
Proof. keeps_prim. Qed.
#[export] Hint Resolve calm_os_Remove : keeps.

Lemma calm_cleanClassFiles d : keeps calm (cleanClassFiles d).
Proof.
  intros w. unfold cleanClassFiles. simpl.
  apply (Walk_keeps (goos w) World _ cleanClassFiles_fn calm).
  intros p i e st. unfold cleanClassFiles_fn.
  destruct e; [reflexivity|].
  destruct (Strs.HasSuffix _ _); [|reflexivity].
  simpl. apply calm_os_Remove.
Qed.
#[export] Hint Resolve calm_cleanClassFiles : keeps.

Lemma calm_remove_class_files d : keeps calm (remove_class_files d).
Proof.
  intros w. unfold remove_class_files.
  pose proof (Walk_keeps (goos w) (World * nat) _ cleanup_fn
                (fun st => calm (fst st))) as H.
  specialize (H (fun p i e st => ltac:(
    unfold cleanup_fn; destruct e; [reflexivity|];
    destruct (Strs.HasSuffix _ _); [|reflexivity];
    pose proof (calm_os_Remove p (fst st)) as Hr;
    destruct (os_Remove p (fst st)) as [ok w1]; destruct ok; exact Hr))
    (fs w) d (w, 0)).
  destruct (FS.Walk (goos w) cleanup_fn (fs w) d (w, 0)) as [w1 n].
  exact H.
Qed.
#[export] Hint Resolve calm_remove_class_files : keeps.

Lemma calm_remove_root_jars l n : keeps calm (remove_root_jars l n).
Proof. revert n. induction l; intros n; simpl; keeps_auto. Qed.
#[export] Hint Resolve calm_remove_root_jars : keeps.

Lemma calm_remove_old_jars l : keeps calm (remove_old_jars l).
Proof. induction l; simpl; keeps_auto. Qed.
#[export] Hint Resolve calm_remove_old_jars : keeps.

Lemma calm_copyFile a b : keeps calm (copyFile a b).
Proof. unfold copyFile. keeps_auto. Qed.
#[export] Hint Resolve calm_copyFile : keeps.

(** *** Each handler prints its banner, and no other mark *)

Lemma Println_then {A} (s : string) (k : IO A) (w : World) :
  (Println s ;; k) w = k (with_log (Out s [] :: log w) w).
Proof. reflexivity. Qed.




Lemma calm_closeOldWindow pid : keeps calm (closeOldWindow pid).
Proof. unfold closeOldWindow. keeps_auto. Qed.
#[export] Hint Resolve calm_closeOldWindow : keeps.

Lemma calm_openNewWindow a b d : keeps calm (openNewWindow a b d).
Proof. unfold openNewWindow. keeps_auto. Qed.
#[export] Hint Resolve calm_openNewWindow : keeps.



Lemma banner_thend {A} (p : phase) (k : IOd A) (w : World) a w1 :
  keepsd plain k ->
  (lift (Println (banner p)) ;;; k) w = Some (a, w1) ->
  shown is_mark w1 = Out (banner p) [] :: shown is_mark w.
Proof.
  intros Hk H. unfold bindd, lift in H. simpl in H.
  apply Hk in H. unfold plain in H.
  transitivity (shown is_mark (with_log (Out (banner p) [] :: log w) w)).
  - congruence.
  - destruct p; reflexivity.
Qed.


Lemma marks_setupDirectories_cfg c w r w1 :
  ConfigGo.setupDirectories c w = Some (r, w1) ->
  shown is_mark w1 = Out (banner Setup) [] :: shown is_mark w.
Proof.
  unfold ConfigGo.setupDirectories. apply (banner_thend Setup). keepsd_auto.
Qed.

(* ================================================================= *)
(** ** C1: the pipeline                                               *)
(* ================================================================= *)












(* ================================================================= *)
(** ** C2: the name of the extension folder                           *)
(* ================================================================= *)

(** A name without drive designator and path separator, and not empty. *)
Definition plain_name (s : string) : Prop :=
  s <> "" /\
  forall c, In c (list_ascii_of_string s) ->
            c <> ":"%char /\ c <> "\"%char /\ c <> "/"%char.

Lemma Contains_char s c :
  Strs.Contains s (String c "") = true <-> In c (list_ascii_of_string s).
Proof.
  induction s as [|d s IH]; simpl.
  - split; [discriminate | intros []].
  - destruct (ascii_dec c d) as [->|Hn]; simpl.
    + replace (prefix "" s) with true by (destruct s; reflexivity).
      split; auto.
    + rewrite IH. split; [auto|]. intros [->|H]; [contradiction|exact H].
Qed.

Lemma Contains_char_false s c :
  Strs.Contains s (String c "") = false <-> ~ In c (list_ascii_of_string s).
Proof.
  rewrite <- Contains_char. destruct (Strs.Contains s (String c "")).
  - split; [discriminate | intros H; exfalso; apply H; reflexivity].
  - split; [intros _ H; discriminate | reflexivity].
Qed.

(** The test of the loop accepts exactly the plain names. *)
Lemma validExtensionFolder_spec s :
  validExtensionFolder s = true <-> plain_name s.
Proof.
  unfold validExtensionFolder, plain_name.
  rewrite !andb_true_iff, !negb_true_iff, !Contains_char_false, String.eqb_neq.
  split.
  - intros [[[H0 H1] H2] H3]. split; [exact H0|].
    intros c Hc. repeat split; intros ->; contradiction.
  - intros [H0 H]. repeat split; auto; intros Hc; destruct (H _ Hc) as (A & B & C);
      congruence.
Qed.



(** What a loop returns is what one of its rounds returned. *)
Lemma rounds_result {A} (body : string -> IO (option A)) (P : A -> Prop) :
  (forall line w a, fst (body line w) = Some a -> P a) ->
  forall lines w a w1, rounds body lines w = Some (a, w1) -> P a.
Proof.
  intros Hb lines. induction lines as [|l rest IH]; intros w a w1 H; simpl in H.
  - specialize (Hb "" (with_stdin [] w)).
    destruct (body "" (with_stdin [] w)) as [[a'|] w']; [|discriminate].
    inversion H; subst. apply Hb. reflexivity.
  - specialize (Hb l (with_stdin rest w)).
    destruct (body l (with_stdin rest w)) as [[a'|] w'].
    + inversion H; subst. apply Hb. reflexivity.
    + eapply IH; eauto.
Qed.


Lemma extension_loop_result w s w1 :
  read_loop extension_round w = Some (s, w1) -> validExtensionFolder s = true.
Proof.
  unfold read_loop.
  apply (rounds_result extension_round (fun a => validExtensionFolder a = true)).
  intros line w0 a.
  unfold extension_round, bind, Print, Println, Printf, emit, ret.
  destruct (validExtensionFolder (Strs.TrimSpace line)) eqn:E; simpl.
  - intros H. inversion H; subst. exact E.
  - discriminate.
Qed.



Lemma bindd_inv {A B} (m : IOd A) (k : A -> IOd B) w r :
  bindd m k w = Some r ->
  exists a w1, m w = Some (a, w1) /\ k a w1 = Some r.
Proof.
  unfold bindd. destruct (m w) as [[a w1]|]; [eauto | discriminate].
Qed.

(** What the setup has written to the configuration file by the world
    [w1], since the world [w]: nothing; or, once, the configuration [c]
    that it stores, which then has a plain name for the extension (the
    file holds it unless the write failed). *)
Definition persisted (w : World) (c : Config) (w1 : World) : Prop :=
  (shown is_write w1 = shown is_write w /\ saved w1 = saved w) \/
  (shown is_write w1 = WriteConfig c :: shown is_write w /\
   (saved w1 = Some c \/ saved w1 = saved w) /\
   plain_name (ExtensionFolder c)).

Lemma collectConfig_result c w b c1 w1 :
  collectConfig c w = Some ((b, c1), w1) ->
  validExtensionFolder (ExtensionFolder c1) = true /\ persisted w c1 w1.
Proof.
  unfold collectConfig. intros H.
  apply bindd_inv in H as (sourceDir & wa & Ea & H).
  assert (Sa : still wa = still w).
  { revert Ea. apply keepsd_read_loop; [reflexivity | auto with keeps]. }
  apply bindd_inv in H as (auto_ & wb & Eb & H).
  assert (Sb : still wb = still wa).
  { revert Eb. apply keepsd_lift. auto with keeps. }
  apply bindd_inv in H as (c2 & wc & Ec & H).
  assert (Sc : still wc = still wb).
  { revert Ec. generalize wc. generalize c2. generalize wb.
    change (keepsd still
      (if negb (auto_ =? "")
       then
         lift (Printf "Auto-detected SmartFox server: %s\n" [auto_]) ;;;
         yes <~ askYesNo "Do you want to use this SmartFox server installation? (y/n): " ;;
         (if yes
          then
            lift (Printf "Using auto-detected target directory: %s\n" [auto_]) ;;;
            retd (set_TargetDir auto_ (set_SourceDir sourceDir c))
          else retd (set_TargetDir "" (set_SourceDir sourceDir c)))
       else retd (set_SourceDir sourceDir c))).
    keepsd_auto. }
  apply bindd_inv in H as (c3 & wd & Ed & H).
  assert (Sd : still wd = still wc).
  { revert Ed. generalize wd. generalize c3. generalize wc.
    change (keepsd still
      (if TargetDir c2 =? ""
       then targetDir <~ read_loop target_round ;; retd (set_TargetDir targetDir c2)
       else retd c2)).
    keepsd_auto. }
  apply bindd_inv in H as (ext & we & Ee & H).
  assert (Se : still we = still wd).
  { revert Ee. apply keepsd_read_loop; [reflexivity | auto with keeps]. }
  apply extension_loop_result in Ee.
  apply bindd_inv in H as (java & wf & Ef & H).
  assert (Sf : still wf = still we).
  { revert Ef. apply keepsd_lift. auto with keeps. }
  assert (S0 : still wf = still w) by congruence.
  clear Sa Sb Sc Sd Se Sf.
  assert (Hwrite : filter is_write (log wf) = filter is_write (log w))
    by (unfold still, calm, shown in S0; congruence).
  assert (Hsaved : saved wf = saved w) by (unfold still in S0; congruence).
  destruct (java =? "").
  - unfold bindd, lift, retd in H. simpl in H. inversion H; subst.
    split; [exact Ee|]. left. unfold shown. simpl. auto.
  - unfold bindd, lift, retd, bind, saveConfig, Println, Printf, emit in H.
    simpl in H. inversion H; subst. split; [exact Ee|]. right.
    simpl ExtensionFolder.
    apply validExtensionFolder_spec in Ee.
    unfold shown. destruct (saved_writable wf); simpl; rewrite Hwrite;
      (split; [reflexivity|]); auto.
Qed.




(* ================================================================= *)
(** ** C10: the window found before the deployment                    *)
(* ================================================================= *)




Lemma run_bind {A B} (m : IO A) (k : A -> IO B) (w : World) :
  bind m k w = k (fst (m w)) (snd (m w)).
Proof. unfold bind. destruct (m w). reflexivity. Qed.





(* ================================================================= *)
(** ** C5: the processes on the server port                           *)
(* ================================================================= *)

(** A line of the connection listing in listening state on the server
    port, as the program reads it. *)
Definition listening_on_9933 (line : string) : bool :=
  Strs.Contains line ":9933" && Strs.Contains line "LISTENING".

(** The process that owns the connection of a line: the last of its
    fields, which are at least five (protocol, local address, foreign
    address, state, identifier). *)
Definition owner (line : string) : option string :=
  let parts := Strs.Fields line in
  if (5 <=? length parts)%nat then Some (last parts "") else None.

Definition taskkill (pid : string) : event :=
  Run "taskkill" ["/PID"; pid; "/F"] "".

(** The processes to end, in the order of the lines. *)
Definition targets (lines : list string) : list string :=
  flat_map (fun line => match owner line with
                        | Some pid => [pid]
                        | None => []
                        end)
    (filter listening_on_9933 lines).

(** One round of the loop, in the words above. *)
Lemma kill_listeners_cons (line : string) (rest : list string) :
  kill_listeners (line :: rest)
  = ((if listening_on_9933 line then
        match owner line with
        | Some pid =>
            Printf "Killing process %s using port 9933\n" [pid] ;;
            _ <- exec "taskkill" ["/PID"; pid; "/F"] "" ;;
            ret tt
        | None => ret tt
        end
      else ret tt) ;;
     kill_listeners rest).
Proof.
  unfold owner, listening_on_9933. cbn [kill_listeners].
  destruct (5 <=? length (Strs.Fields line))%nat; reflexivity.
Qed.

(** The loop runs [taskkill] once for each target, in order, and nothing
    else. *)
Lemma kill_listeners_runs (lines : list string) : forall w,
  shown is_run (snd (kill_listeners lines w))
  = rev (map taskkill (targets lines)) ++ shown is_run w.
Proof.
  induction lines as [|line rest IH]; intros w; [reflexivity|].
  rewrite kill_listeners_cons, run_bind, IH. unfold targets. cbn [filter].
  destruct (listening_on_9933 line); [|reflexivity].
  cbn [flat_map]. destruct (owner line) as [pid|]; [|reflexivity].
  cbn [app map rev]. rewrite <- app_assoc. reflexivity.
Qed.

Lemma killPort9933_runs (w : World) :
  shown is_run (snd (killPort9933 w))
  = if is_windows (goos w) then
      let '(ok, output) := programs w (log w) "netstat" ["-ano"] in
      (if ok then rev (map taskkill (targets (Strs.Split output line_feed)))
       else [])
      ++ Run "netstat" ["-ano"] "" :: shown is_run w
    else shown is_run w.
Proof.
  unfold killPort9933. rewrite run_bind. unfold gets. cbn [fst snd].
  destruct (is_windows (goos w)); cbn [negb]; [|reflexivity].
  rewrite run_bind. unfold exec. cbn [fst snd].
  destruct (programs w (log w) "netstat" ["-ano"]) as [ok output].
  destruct ok; cbn [negb]; [|reflexivity].
  rewrite kill_listeners_runs. reflexivity.
Qed.


(* ================================================================= *)
(** ** C6: the classpath                                              *)
(* ================================================================= *)

(** The separator of the entries of a classpath. *)
Definition classpath_separator (os : GOOS) : string :=
  if is_windows os then ";" else ":".

(** What the fixed list of required archives matches in a directory. *)
Definition required_matches (w : World) (serverLibDir : string) : list string :=
  flat_map (fun jarPattern => Glob w (Join w [serverLibDir; jarPattern]))
    requiredJars.

Definition no_jars_warning (serverLibDir : string) : event :=
  Out "Warning: No JAR files found in %s\n" [serverLibDir].

(** The classpath in terms of what the two searches yield. *)
Lemma buildClasspath_cases (w : World) (lib : string) :
  buildClasspath lib w
  = match Glob w (Join w [lib; "*.jar"]) with
    | (_ :: _) as parts =>
        (Strs.Join parts (classpath_separator (goos w)), w)
    | [] =>
        match required_matches w lib with
        | (_ :: _) as parts =>
            (Strs.Join parts (classpath_separator (goos w)), w)
        | [] => (".", with_log (no_jars_warning lib :: log w) w)
        end
    end.
Proof.
  unfold buildClasspath, required_matches. rewrite run_bind. unfold gets.
  cbn [fst snd].
  destruct (Glob w (Join w [lib; "*.jar"])) as [|a parts]; [|reflexivity].
  cbn [length Nat.eqb].
  destruct (flat_map _ requiredJars) as [|a parts]; reflexivity.
Qed.

(** C6.  When the archives that the library directory yields are exactly
    two, [a] and [b] in the order of the enumeration, the classpath is
    [a], the separator of the platform (a semicolon on Windows, a colon
    elsewhere), [b]; in general it is the entries joined by the
    separator, in that order.  When the directory yields no archive the
    fixed list of required names is tried, and when that yields nothing
    either the classpath is the current directory and a warning is
    printed; nothing else changes. *)
Theorem classpath_is_the_archives_joined (w : World) (lib : string) :
  (forall a b,
     Glob w (Join w [lib; "*.jar"]) = [a; b] ->
     buildClasspath lib w
     = ((a ++ (if is_windows (goos w) then ";" else ":") ++ b)%string, w)) /\
  (forall parts,
     parts <> [] ->
     Glob w (Join w [lib; "*.jar"]) = parts ->
     buildClasspath lib w = (Strs.Join parts (classpath_separator (goos w)), w)) /\
  (Glob w (Join w [lib; "*.jar"]) = [] ->
   (required_matches w lib <> [] ->
    buildClasspath lib w
    = (Strs.Join (required_matches w lib) (classpath_separator (goos w)), w)) /\
   (required_matches w lib = [] ->
    buildClasspath lib w = (".", with_log (no_jars_warning lib :: log w) w))).
Proof.
  rewrite buildClasspath_cases. split; [|split].
  - intros a b H. rewrite H. unfold classpath_separator. reflexivity.
  - intros parts Hne H. rewrite H. destruct parts; [contradiction|reflexivity].
  - intros H. rewrite H. split; intros Hr.
    + destruct (required_matches w lib); [contradiction|reflexivity].
    + rewrite Hr. reflexivity.
Qed.

(* ================================================================= *)
(** ** Walks: what they reach                                         *)
(* ================================================================= *)

(** The test of every walk of the program: the name, in lower case, ends
    with the extension. *)
Definition has_ext (ext name : string) : bool :=
  Strs.HasSuffix (Strs.ToLower name) ext.

(** An entry with the extension is reached by a walk from [n]: [n]
    itself, or an entry below it; what is inside a directory that cannot
    be listed is not reached, nor is that directory (the walk reports it
    with an error).  The program tests names only: a directory counts
    like a file. *)
Fixpoint reaches (ext : string) (n : FS.node) : bool :=
  match n with
  | FS.File nm _ _ => has_ext ext nm
  | FS.Dir nm r _ kids =>
      r && (has_ext ext nm || existsb (reaches ext) kids)
  end.

(** Two walks over the same tree whose functions keep a relation between
    their states, and return the same, end in related states. *)
Lemma walk_sim (os : GOOS) (S1 S2 : Type) (R : S1 -> S2 -> Prop)
  (fn1 : string -> FS.FileInfo -> bool -> S1 -> S1 * FS.WalkErr)
  (fn2 : string -> FS.FileInfo -> bool -> S2 -> S2 * FS.WalkErr) :
  (forall p i e s1 s2, R s1 s2 ->
     R (fst (fn1 p i e s1)) (fst (fn2 p i e s2)) /\
     snd (fn1 p i e s1) = snd (fn2 p i e s2)) ->
  forall n path s1 s2, R s1 s2 ->
    R (fst (FS.walk os fn1 path n s1)) (fst (FS.walk os fn2 path n s2)) /\
    snd (FS.walk os fn1 path n s1) = snd (FS.walk os fn2 path n s2).
Proof.
  intros Hfn n.
  induction n as [nm data locked | nm r w kids IH] using node_induction;
    intros path s1 s2 HR.
  - simpl. apply Hfn. exact HR.
  - simpl.
    destruct (Hfn path (FS.info (FS.Dir nm r w kids)) (negb r) s1 s2 HR)
      as [HR1 He].
    destruct (fn1 path (FS.info (FS.Dir nm r w kids)) (negb r) s1) as [a1 e1].
    destruct (fn2 path (FS.info (FS.Dir nm r w kids)) (negb r) s2) as [a2 e2].
    simpl in HR1, He. subst e2.
    destruct (negb r); [split; [exact HR1|reflexivity]|].
    destruct e1; [|split; [exact HR1|reflexivity]].
    clear HR. revert a1 a2 HR1.
    induction IH as [| k l Hk _ IHl]; intros a1 a2 HR1;
      [split; [exact HR1|reflexivity]|].
    destruct (Hk (Filepath.Join os [path; FS.name k]) a1 a2 HR1) as [HR2 He2].
    destruct (FS.walk os fn1 (Filepath.Join os [path; FS.name k]) k a1)
      as [b1 f1].
    destruct (FS.walk os fn2 (Filepath.Join os [path; FS.name k]) k a2)
      as [b2 f2].
    simpl in HR2, He2. subst f2.
    destruct f1; [apply IHl; exact HR2|].
    destruct (FS.isDir k); [apply IHl; exact HR2|].
    split; [exact HR2|reflexivity].
Qed.


Lemma Printf_then {A} (f : string) (args : list string) (k : IO A) (w : World) :
  (Printf f args ;; k) w = k (with_log (Out f args :: log w) w).
Proof. reflexivity. Qed.

Lemma gets_then {A B} (g : World -> A) (k : A -> IO B) (w : World) :
  (x <- gets g ;; k x) w = k (g w) w.
Proof. reflexivity. Qed.

(* ================================================================= *)
(** ** C8: the cleanup of a clean tree                                *)
(* ================================================================= *)







(* ================================================================= *)
(** ** C7: a build without sources                                    *)
(* ================================================================= *)

(** Removing files does not depend on the log. *)
Lemma os_Remove_with_log (p : string) (l : list event) (w : World) :
  os_Remove p (with_log l w)
  = (fst (os_Remove p w), with_log l (snd (os_Remove p w))).
Proof.
  unfold os_Remove. cbn [fs goos with_log].
  destruct (p =? ""); [reflexivity|].
  destruct (FS.remove (fs w) (Filepath.elements (goos w) p)); reflexivity.
Qed.

Lemma cleanClassFiles_with_log (d : string) (l : list event) (w : World) :
  snd (cleanClassFiles d (with_log l w))
  = with_log l (snd (cleanClassFiles d w)).
Proof.
  unfold cleanClassFiles, FS.Walk. cbn [snd fs goos with_log].
  destruct (FS.stat (goos w) (fs w) d) as [n|]; [|reflexivity].
  apply (walk_sim (goos w) World World (fun s1 s2 => s1 = with_log l s2)
           cleanClassFiles_fn cleanClassFiles_fn); [|reflexivity].
  intros p i e s1 s2 ->. unfold cleanClassFiles_fn.
  destruct e; [split; reflexivity|].
  destruct (Strs.HasSuffix _ _); [|split; reflexivity].
  rewrite os_Remove_with_log. split; reflexivity.
Qed.

Lemma runs_cleanClassFiles (d : string) : keeps (shown is_run) (cleanClassFiles d).
Proof.
  intros w. unfold cleanClassFiles. simpl.
  apply (Walk_keeps (goos w) World _ cleanClassFiles_fn (shown is_run)).
  intros p i e st. unfold cleanClassFiles_fn.
  destruct e; [reflexivity|].
  destruct (Strs.HasSuffix _ _); [|reflexivity].
  unfold os_Remove. simpl. destruct (p =? ""); [reflexivity|].
  destruct (FS.remove _ _); reflexivity.
Qed.

(** What the enumeration of the build phase finds: it is made when the
    old class files have been removed. *)
Definition sources_found (c : Config) (w : World) : list string :=
  let srcDir := Join w [SourceDir c; "src"] in
  findJavaFiles (snd (cleanClassFiles srcDir w)) srcDir.



(* ================================================================= *)
(** ** C3: the search for the toolchain                               *)
(* ================================================================= *)

(** The candidate of the first strategy: the compiler under [JAVA_HOME],
    when the variable is set and the file exists. *)
Definition home_candidate (w : World) : list string :=
  if JAVA_HOME w =? "" then []
  else
    let javacPath := exe w (Join w [JAVA_HOME w; "bin"; "javac"]) in
    if exists_ w javacPath then [javacPath] else [].

(** The candidate of the second strategy: the compiler on the search
    path. *)
Definition path_candidate (w : World) : list string :=
  match lookPath_javac w with Some path => [path] | None => [] end.

(** The candidates of the third strategy, on Windows only: what the fixed
    patterns match, in the order of the patterns. *)
Definition common_candidates (w : World) : list string :=
  if is_windows (goos w)
  then filter (exists_ w) (flat_map (Glob w) commonJavaPaths)
  else [].

(** The candidates of the automatic strategies, in the order of the
    strategies. *)
Definition candidates (w : World) : list string :=
  home_candidate w ++ path_candidate w ++ common_candidates w.

(** The candidates are tried in order; each one is run with the version
    flag, and the first one that is confirmed gives its directory. *)
Fixpoint first_confirmed (os : GOOS) (cands : list string) : IO (option string) :=
  match cands with
  | [] => ret None
  | path :: rest =>
      ok <- isJava11 path ;;
      if ok then ret (Some (Filepath.Dir os path))
      else first_confirmed os rest
  end.

(** The search as the specification has it: the automatic candidates in
    order, then the question to the operator. *)
Definition toolchain_search (w0 : World) : IO string :=
  r <- first_confirmed (goos w0) (candidates w0) ;;
  match r with
  | Some d => ret d
  | None => java11_from_prompt
  end.

(** Two worlds with the same file tree on the same machine. *)
Definition same_files (w0 w : World) : Prop :=
  fs w = fs w0 /\ machine w = machine w0.

Lemma same_files_refl w : same_files w w.
Proof. split; reflexivity. Qed.

Lemma same_files_goos w0 w : same_files w0 w -> goos w = goos w0.
Proof. intros [_ H]. unfold machine in H. congruence. Qed.

Lemma same_files_exists w0 w p : same_files w0 w -> exists_ w p = exists_ w0 p.
Proof.
  intros H. pose proof (same_files_goos _ _ H) as Hg. destruct H as [Hf _].
  unfold exists_, Stat. rewrite Hf, Hg. reflexivity.
Qed.

Lemma same_files_Glob w0 w p : same_files w0 w -> Glob w p = Glob w0 p.
Proof.
  intros H. pose proof (same_files_goos _ _ H) as Hg. destruct H as [Hf _].
  unfold Glob. rewrite Hf, Hg. reflexivity.
Qed.

Lemma same_files_keeps {A} (m : IO A) w0 w :
  keeps still m -> same_files w0 w -> same_files w0 (snd (m w)).
Proof.
  intros Hk [Hf Hm]. specialize (Hk w). unfold still, calm in Hk.
  split; congruence.
Qed.

Lemma first_confirmed_app os l1 l2 w :
  first_confirmed os (l1 ++ l2) w
  = (r <- first_confirmed os l1 ;;
     match r with
     | Some d => ret (Some d)
     | None => first_confirmed os l2
     end) w.
Proof.
  revert w. induction l1 as [|p l1 IH]; intros w; [reflexivity|].
  cbn [app first_confirmed]. rewrite !run_bind.
  destruct (fst (isJava11 p w)).
  - reflexivity.
  - rewrite IH, run_bind. reflexivity.
Qed.

Lemma still_first_confirmed os l : keeps still (first_confirmed os l).
Proof. induction l; simpl; keeps_auto. Qed.
#[export] Hint Resolve still_first_confirmed : keeps.

(** The inner loop of the third strategy tries the matches that exist. *)
Lemma java11_among_confirmed w0 l : forall w,
  same_files w0 w ->
  java11_among l w = first_confirmed (goos w0) (filter (exists_ w0) l) w.
Proof.
  induction l as [|p l IH]; intros w Hs; [reflexivity|].
  cbn [java11_among filter]. rewrite gets_then.
  rewrite (same_files_exists _ _ p Hs).
  destruct (exists_ w0 p).
  - cbn [first_confirmed]. rewrite !run_bind.
    rewrite (same_files_goos _ _ Hs).
    destruct (fst (isJava11 p w)); [reflexivity|].
    apply IH. apply same_files_keeps; [apply still_isJava11 | exact Hs].
  - apply IH. exact Hs.
Qed.

(** The outer loop tries the matches of the patterns, in order. *)
Lemma java11_in_patterns_confirmed w0 pats : forall w,
  same_files w0 w ->
  java11_in_patterns pats w
  = first_confirmed (goos w0) (filter (exists_ w0) (flat_map (Glob w0) pats)) w.
Proof.
  induction pats as [|pat pats IH]; intros w Hs; [reflexivity|].
  cbn [java11_in_patterns flat_map]. rewrite gets_then, run_bind.
  rewrite filter_app, first_confirmed_app, run_bind.
  rewrite (same_files_Glob _ _ pat Hs), (java11_among_confirmed w0 _ w Hs).
  destruct (fst (first_confirmed (goos w0)
                   (filter (exists_ w0) (Glob w0 pat)) w)) as [d|];
    [reflexivity|].
  apply IH. apply same_files_keeps; [apply still_first_confirmed | exact Hs].
Qed.

Lemma java11_from_home_confirmed w :
  java11_from_home w = first_confirmed (goos w) (home_candidate w) w.
Proof.
  unfold java11_from_home, home_candidate. rewrite gets_then.
  destruct (JAVA_HOME w =? ""); cbn [negb]; [reflexivity|]. cbv zeta.
  destruct (exists_ w _); [|reflexivity].
  cbn [first_confirmed]. rewrite !run_bind.
  destruct (fst (isJava11 _ w)); reflexivity.
Qed.

Lemma java11_from_path_confirmed w0 w :
  same_files w0 w ->
  java11_from_path w = first_confirmed (goos w0) (path_candidate w0) w.
Proof.
  intros Hs. unfold java11_from_path, path_candidate. rewrite gets_then.
  assert (Hl : lookPath_javac w = lookPath_javac w0)
    by (destruct Hs as [_ Hm]; unfold machine in Hm; congruence).
  rewrite Hl, (same_files_goos _ _ Hs).
  destruct (lookPath_javac w0) as [p|]; [|reflexivity].
  cbn [first_confirmed]. rewrite !run_bind.
  destruct (fst (isJava11 p w)); reflexivity.
Qed.

Lemma java11_from_common_confirmed w0 w :
  same_files w0 w ->
  java11_from_common w = first_confirmed (goos w0) (common_candidates w0) w.
Proof.
  intros Hs. unfold java11_from_common, common_candidates. rewrite gets_then.
  rewrite (same_files_goos _ _ Hs).
  destruct (is_windows (goos w0)); [|reflexivity].
  apply java11_in_patterns_confirmed. exact Hs.
Qed.

(** [findJava11Path] is the search of the specification: the strategies
    in order, the first success wins. *)
Lemma findJava11Path_is_search w :
  findJava11Path w = toolchain_search w w.
Proof.
  unfold findJava11Path, toolchain_search, candidates.
  rewrite !run_bind, first_confirmed_app, run_bind.
  rewrite java11_from_home_confirmed.
  set (r1 := first_confirmed (goos w) (home_candidate w) w).
  assert (S1 : same_files w (snd r1)).
  { apply same_files_keeps; [apply still_first_confirmed|apply same_files_refl]. }
  destruct (fst r1) as [d|]; [reflexivity|].
  rewrite !run_bind, first_confirmed_app, run_bind.
  rewrite (java11_from_path_confirmed w (snd r1) S1).
  set (r2 := first_confirmed (goos w) (path_candidate w) (snd r1)).
  assert (S2 : same_files w (snd r2)).
  { apply same_files_keeps; [apply still_first_confirmed|exact S1]. }
  destruct (fst r2) as [d|]; [reflexivity|].
  rewrite !run_bind.
  rewrite (java11_from_common_confirmed w (snd r2) S2).
  destruct (fst (first_confirmed (goos w) (common_candidates w) (snd r2)));
    reflexivity.
Qed.

(** The version of a compiler is confirmed: run with the version flag
    after the events [before], it ends without error and its output has
    one of the two tokens of the version. *)
Definition confirmed_after (w : World) (before : list event) (path : string)
  : Prop :=
  exists out,
    programs w before path ["-version"] = (true, out) /\
    (Strs.Contains out "11." || Strs.Contains out "javac 11") = true.

Lemma isJava11_true path w :
  fst (isJava11 path w) = true -> confirmed_after w (log w) path.
Proof.
  unfold isJava11, confirmed_after. rewrite run_bind. unfold exec. cbn [fst snd].
  destruct (programs w (log w) path ["-version"]) as [ok out].
  destruct ok; cbn [negb]; [|discriminate].
  intros H. exists out. split; [reflexivity|exact H].
Qed.

Lemma isJava11_log path w :
  log (snd (isJava11 path w)) = Run path ["-version"] "" :: log w /\
  programs (snd (isJava11 path w)) = programs w.
Proof.
  unfold isJava11. rewrite run_bind. unfold exec. cbn [fst snd].
  destruct (programs w (log w) path ["-version"]) as [ok out].
  destruct ok; split; reflexivity.
Qed.

(** A directory that the automatic search returns is the directory of a
    candidate whose version was confirmed by the last program run. *)
Lemma first_confirmed_checked os cands : forall w d w1,
  first_confirmed os cands w = (Some d, w1) ->
  exists path before,
    In path cands /\ d = Filepath.Dir os path /\
    log w1 = Run path ["-version"] "" :: before /\
    confirmed_after w before path.
Proof.
  induction cands as [|p rest IH]; intros w d w1 H; [discriminate|].
  cbn [first_confirmed] in H. rewrite run_bind in H.
  destruct (fst (isJava11 p w)) eqn:E.
  - inversion H; subst. exists p, (log w).
    split; [left; reflexivity|]. split; [reflexivity|].
    split; [apply isJava11_log | apply isJava11_true; exact E].
  - apply IH in H. destruct H as (path & before & Hin & Hd & Hl & Hc).
    exists path, before. split; [right; exact Hin|]. split; [exact Hd|].
    split; [exact Hl|].
    destruct Hc as (out & Hp & Ht). exists out. split; [|exact Ht].
    rewrite <- Hp. symmetry.
    destruct (isJava11_log p w) as [_ Hprog]. rewrite Hprog. reflexivity.
Qed.

(** What the operator's answer gives: the directory typed, when the
    compiler is found in it, and the empty string otherwise; no program
    is run to check the version. *)
Definition prompt_answer (w : World) : string :=
  let userPath := Strs.TrimSpace (hd "" (stdin w)) in
  if negb (userPath =? "") && exists_ w (exe w (Join w [userPath; "javac"]))
  then userPath else "".

Lemma ReadString_facts w :
  fst (ReadString w) = hd "" (stdin w) /\
  fs (snd (ReadString w)) = fs w /\
  goos (snd (ReadString w)) = goos w /\
  log (snd (ReadString w)) = log w.
Proof.
  unfold ReadString. destruct (stdin w); repeat split; reflexivity.
Qed.

Lemma java11_from_prompt_result w :
  fst (java11_from_prompt w) = prompt_answer w /\
  shown is_run (snd (java11_from_prompt w)) = shown is_run w.
Proof.
  unfold java11_from_prompt, prompt_answer.
  rewrite Println_then, Println_then, run_bind.
  match goal with
  | |- context [ReadString ?w1] =>
      destruct (ReadString_facts w1) as (Hl & Hf & Hg & Hlog);
      set (r := ReadString w1) in *
  end.
  cbn [stdin fs goos log with_log] in Hl, Hf, Hg, Hlog.
  rewrite gets_then, Hl. unfold exists_, Stat, exe, Join, shown.
  rewrite Hf, Hg.
  destruct (Strs.TrimSpace (hd "" (stdin w)) =? ""); cbn [negb andb].
  - unfold ret. cbn [fst snd]. rewrite Hlog. split; reflexivity.
  - destruct (FS.stat (goos w) (fs w) _); unfold ret; cbn [fst snd];
      rewrite Hlog; split; reflexivity.
Qed.

Lemma isJava11_confirmed path w :
  confirmed_after w (log w) path ->
  isJava11 path w = (true, with_log (Run path ["-version"] "" :: log w) w).
Proof.
  intros (out & Hp & Ht). unfold isJava11. rewrite run_bind. unfold exec.
  cbn [fst snd]. rewrite Hp. cbn [negb]. unfold ret. rewrite Ht. reflexivity.
Qed.

(** The scenario of the specification. *)
Lemma single_glob_match w path :
  goos w = windows ->
  JAVA_HOME w = "" ->
  lookPath_javac w = None ->
  flat_map (Glob w) commonJavaPaths = [path] ->
  exists_ w path = true ->
  confirmed_after w (log w) path ->
  findJava11Path w
  = (Filepath.Dir windows path,
     with_log (Run path ["-version"] "" :: log w) w).
Proof.
  intros Hos Hhome Hpath Hglob Hex Hconf.
  rewrite findJava11Path_is_search. unfold toolchain_search, candidates.
  unfold home_candidate, path_candidate, common_candidates.
  rewrite Hhome, Hpath, Hos, Hglob. cbn [String.eqb is_windows filter app].
  rewrite Hex. cbn [app first_confirmed]. rewrite !run_bind.
  rewrite (isJava11_confirmed _ _ Hconf). reflexivity.
Qed.

(** C3, as amended.  The search tries, in this order, the compiler under
    [JAVA_HOME], the compiler on the search path, the matches of the fixed
    patterns (on Windows only) and then the operator; it returns the
    directory of the first success, or the empty string.  A directory
    that one of the three automatic strategies returns is that of a
    candidate which has just been run with the version flag, has ended
    without error and has printed one of the tokens [11.] and
    [javac 11].  The directory that the operator names is returned when
    the compiler is found in it, and no program is run to check its
    version.  In particular, on Windows, with [JAVA_HOME] unset and no
    compiler on the search path, a single existing match of the patterns
    whose version is confirmed gives its directory. *)
Theorem toolchain_search_is_ordered (w : World) :
  findJava11Path w = toolchain_search w w /\
  (forall d w1,
     first_confirmed (goos w) (candidates w) w = (Some d, w1) ->
     exists path before,
       In path (candidates w) /\ d = Filepath.Dir (goos w) path /\
       log w1 = Run path ["-version"] "" :: before /\
       confirmed_after w before path) /\
  (forall w1,
     fst (java11_from_prompt w1) = prompt_answer w1 /\
     shown is_run (snd (java11_from_prompt w1)) = shown is_run w1) /\
  (forall path,
     goos w = windows ->
     JAVA_HOME w = "" ->
     lookPath_javac w = None ->
     flat_map (Glob w) commonJavaPaths = [path] ->
     exists_ w path = true ->
     confirmed_after w (log w) path ->
     fst (findJava11Path w) = Filepath.Dir windows path).
Proof.
  split; [apply findJava11Path_is_search|].
  split; [intros d w1 H; eapply first_confirmed_checked; eauto|].
  split; [intros w1; apply java11_from_prompt_result|].
  intros path H1 H2 H3 H4 H5 H6.
  rewrite (single_glob_match w path H1 H2 H3 H4 H5 H6). reflexivity.
Qed.

(* ================================================================= *)
(** ** C4: the archives of the extension directory                    *)
(* ================================================================= *)

(** The primitives of the file system, in a world whose tree and
    platform are known. *)
Lemma os_MkdirAll_at (p : string) (w : World) (t : FS.node) :
  (p =? "") = false ->
  FS.mkdirAll (fs w) (Filepath.elements (goos w) p) = Some t ->
  os_MkdirAll p w = (true, with_fs t w).
Proof. intros Hp H. unfold os_MkdirAll. rewrite Hp, H. reflexivity. Qed.

Lemma os_Remove_at (p : string) (w : World) (t : FS.node) :
  (p =? "") = false ->
  FS.remove (fs w) (Filepath.elements (goos w) p) = Some t ->
  os_Remove p w = (true, with_fs t w).
Proof. intros Hp H. unfold os_Remove. rewrite Hp, H. reflexivity. Qed.

Lemma os_Remove_fails_at (p : string) (w : World) :
  (p =? "") = false ->
  FS.remove (fs w) (Filepath.elements (goos w) p) = None ->
  os_Remove p w = (false, w).
Proof. intros Hp H. unfold os_Remove. rewrite Hp, H. reflexivity. Qed.

Lemma copyFile_at (src dst data : string) (w : World) (t : FS.node)
  (nm : string) (locked : bool) :
  FS.stat (goos w) (fs w) src = Some (FS.File nm data locked) ->
  (dst =? "") = false ->
  FS.write (fs w) (Filepath.elements (goos w) dst) data = Some t ->
  copyFile src dst w = (true, with_fs t w).
Proof.
  intros Hs Hd Hw. unfold copyFile. rewrite gets_then. unfold Stat.
  rewrite Hs. unfold os_WriteFile. rewrite Hd, Hw. reflexivity.
Qed.








Lemma world_eta (w : World) :
  w = mkWorld (goos w) (JAVA_HOME w) (lookPath_javac w) (userHomeDir w)
        (stdin w) (fs w) (saved w) (saved_writable w) (programs w)
        (builders w) (log w) (smartFoxCmdPid w).
Proof. destruct w. reflexivity. Qed.

(** A host on which no external program answers, nobody types, and no
    configuration was saved. *)
Definition quiet_host (os : GOOS) (tree : FS.node) : World :=
  mkWorld os "" None None [] tree None true
    (fun _ _ _ => (false, ""))
    (fun _ _ _ _ t => ((false, ""), t))
    [] "".






(* ================================================================= *)
(** ** C9: the validation of the source directory                     *)
(* ================================================================= *)

(** What the walk of [hasJavaFiles] computes: [found] becomes true exactly
    where an entry whose name ends with [.java] is reached; and the walk
    asks to skip only after it has set [found]. *)
Lemma walk_hasJavaFiles (os : GOOS) (n : FS.node) :
  forall path found,
    fst (FS.walk os hasJavaFiles_fn path n found)
    = found || reaches ".java" n /\
    (snd (FS.walk os hasJavaFiles_fn path n found) = FS.SkipDir ->
     fst (FS.walk os hasJavaFiles_fn path n found) = true).
Proof.
  induction n as [nm data locked | nm r w kids IH] using node_induction;
    intros path found.
  - simpl. unfold hasJavaFiles_fn, has_ext. simpl.
    destruct (Strs.HasSuffix (Strs.ToLower nm) ".java"); simpl.
    + rewrite orb_true_r. auto.
    + rewrite orb_false_r. split; [reflexivity | discriminate].
  - simpl.
    destruct (hasJavaFiles_fn path (FS.info (FS.Dir nm r w kids)) (negb r) found)
      as [a e] eqn:E.
    unfold hasJavaFiles_fn in E. simpl in E. unfold has_ext.
    destruct r; simpl in E |- *.
    2:{ injection E as <- <-. rewrite orb_false_r.
        split; [reflexivity | discriminate]. }
    destruct (Strs.HasSuffix (Strs.ToLower nm) ".java");
      injection E as <- <-; simpl.
    + rewrite orb_true_r. auto.
    + revert found. induction IH as [| k l Hk _ IHl]; intros found.
      * simpl. rewrite orb_false_r. split; [reflexivity | discriminate].
      * destruct (Hk (Filepath.Join os [path; FS.name k]) found) as [H1 H2].
        destruct (FS.walk os hasJavaFiles_fn
                    (Filepath.Join os [path; FS.name k]) k found) as [st e].
        simpl in H1, H2. simpl existsb. rewrite orb_assoc, <- H1.
        destruct e; [apply IHl|].
        destruct (FS.isDir k); [apply IHl|].
        simpl. rewrite (H2 eq_refl). auto.
Qed.

Lemma hasJavaFiles_reaches (w : World) (dir : string) :
  hasJavaFiles w dir =
  match Stat w dir with
  | Some n => reaches ".java" n
  | None => false
  end.
Proof.
  unfold hasJavaFiles, FS.Walk, Stat.
  destruct (FS.stat (goos w) (fs w) dir) as [n|]; [|reflexivity].
  apply (walk_hasJavaFiles (goos w) n dir false).
Qed.

(** The names of the regular files of a tree that end with [.java]. *)
Fixpoint java_sources (n : FS.node) : list string :=
  match n with
  | FS.File nm _ _ => if has_ext ".java" nm then [nm] else []
  | FS.Dir _ _ _ kids => flat_map java_sources kids
  end.

(** A project whose [src] holds nothing but an empty directory that is
    named like a source file. *)
Definition named_like_a_source : FS.node :=
  FS.Dir "" true true
    [ FS.Dir "proj" true true
        [ FS.Dir "src" true true [ FS.Dir "gen.java" true true [] ] ] ].

(** C9: the validation tests the names of the entries and not their kind.
    A project whose [src] holds no file at all, only a directory named
    [gen.java], passes the validation; the enumeration of the build then
    hands that directory to the compiler as a source. *)
Theorem a_directory_passes_for_a_source :
  let w := quiet_host other_os named_like_a_source in
  java_sources (fs w) = [] /\
  validateSourceDir w "/proj" = true /\
  findJavaFiles w "/proj/src" = ["/proj/src/gen.java"].
Proof. vm_compute. repeat split. Qed.

(* ================================================================= *)
(** ** Concrete hosts                                                 *)
(* ================================================================= *)

(** A host whose operator names a directory that holds a compiler of
    another version; no program answers. *)
Definition jdk17_tree : FS.node :=
  FS.Dir "" true true
    [ FS.Dir "opt" true true
        [ FS.Dir "jdk17" true true
            [ FS.Dir "bin" true true [ FS.File "javac" "" false ] ] ] ].

(** C3, as the specification has it, fails for the last strategy: the
    directory that the operator types is accepted because a compiler is
    found in it, and no program has been run with the version flag. *)
Lemma operator_toolchain_is_not_checked :
  let w := with_stdin ["/opt/jdk17/bin"] (quiet_host other_os jdk17_tree) in
  fst (findJava11Path w) = "/opt/jdk17/bin" /\
  shown is_run (snd (findJava11Path w)) = [].
Proof. vm_compute. split; reflexivity. Qed.







(** A Windows host with one toolchain of the wanted version under a
    well-known directory, and one of another version beside it. *)
Definition adoptium_tree : FS.node :=
  FS.Dir "" true true
    [ FS.Dir "C:" true true
        [ FS.Dir "Program Files" true true
            [ FS.Dir "Java" true true
                [ FS.Dir "jdk-11.0.2" true true
                    [ FS.Dir "bin" true true [ FS.File "javac.exe" "" false ] ];
                  FS.Dir "jdk-17" true true
                    [ FS.Dir "bin" true true [ FS.File "javac.exe" "" false ] ]
                ] ] ] ].

Definition jdk11_javac : string :=
  "C:\Program Files\Java\jdk-11.0.2\bin\javac.exe".

Definition jdk11_host : World :=
  mkWorld windows "" None None [] adoptium_tree None true
    (fun _ name _ =>
       if name =? jdk11_javac then (true, "javac 11.0.2") else (false, ""))
    (fun _ _ _ _ t => ((false, ""), t))
    [] "".

Lemma toolchain_search_is_ordered_witness :
  flat_map (Glob jdk11_host) commonJavaPaths = [jdk11_javac] /\
  fst (findJava11Path jdk11_host)
  = Filepath.Dir windows jdk11_javac /\
  Filepath.Dir windows jdk11_javac = "C:\Program Files\Java\jdk-11.0.2\bin".
Proof.
  assert (H : flat_map (Glob jdk11_host) commonJavaPaths = [jdk11_javac])
    by (vm_compute; reflexivity).
  assert (E : exists_ jdk11_host jdk11_javac = true) by (vm_compute; reflexivity).
  assert (C : confirmed_after jdk11_host (log jdk11_host) jdk11_javac)
    by (exists "javac 11.0.2"; split; vm_compute; reflexivity).
  split; [exact H|]. split; [|vm_compute; reflexivity].
  exact (proj2 (proj2 (proj2 (toolchain_search_is_ordered jdk11_host)))
           jdk11_javac eq_refl eq_refl eq_refl H E C).
Defined.

(** A server whose library directory holds two archives, and a project
    with one source and nothing to clean. *)
Definition two_archives_tree : FS.node :=
  FS.Dir "" true true
    [ FS.Dir "proj" true true
        [ FS.Dir "src" true true [ FS.File "Main.java" "" false ] ];
      FS.Dir "srv" true true
        [ FS.Dir "SFS2X" true true
            [ FS.Dir "lib" true true
                [ FS.File "a.jar" "" false; FS.File "b.jar" "" false;
                  FS.File "readme.txt" "" false ] ] ] ].

Lemma classpath_is_the_archives_joined_witness :
  Glob (quiet_host other_os two_archives_tree) "/srv/SFS2X/lib/*.jar"
  = ["/srv/SFS2X/lib/a.jar"; "/srv/SFS2X/lib/b.jar"] /\
  buildClasspath "/srv/SFS2X/lib" (quiet_host other_os two_archives_tree)
  = ("/srv/SFS2X/lib/a.jar:/srv/SFS2X/lib/b.jar",
     quiet_host other_os two_archives_tree).
Proof.
  assert (H : Glob (quiet_host other_os two_archives_tree)
                (Join (quiet_host other_os two_archives_tree)
                   ["/srv/SFS2X/lib"; "*.jar"])
              = ["/srv/SFS2X/lib/a.jar"; "/srv/SFS2X/lib/b.jar"])
    by (vm_compute; reflexivity).
  split; [exact H|].
  exact (proj1 (classpath_is_the_archives_joined
                  (quiet_host other_os two_archives_tree) "/srv/SFS2X/lib")
           "/srv/SFS2X/lib/a.jar" "/srv/SFS2X/lib/b.jar" H).
Defined.


(* ================================================================= *)
(** * Further properties of the program                               *)
(* ================================================================= *)

(* ================================================================= *)
(** ** The validation of the directories                              *)
(* ================================================================= *)

(** X1.  [validateSourceDir] accepts a directory exactly when it exists,
    its [src] exists, and the walk of [src] reaches an entry whose name
    ends with [.java] in lower case.  In particular a root that does not
    exist, and a root without [src], are refused. *)
Theorem source_validation_is_a_name_search (w : World) (dir : string) :
  (validateSourceDir w dir = true <->
   exists_ w dir = true /\
   exists n, Stat w (Join w [dir; "src"]) = Some n /\
             reaches ".java" n = true) /\
  (exists_ w dir = false -> validateSourceDir w dir = false) /\
  (exists_ w (Join w [dir; "src"]) = false -> validateSourceDir w dir = false).
Proof.
  unfold validateSourceDir. cbv zeta. rewrite hasJavaFiles_reaches.
  unfold exists_.
  destruct (Stat w dir); simpl.
  - destruct (Stat w (Join w [dir; "src"])) as [m|]; simpl.
    + split; [|split; discriminate]. split.
      * intros H. split; [reflexivity|]. exists m. auto.
      * intros (_ & m' & Hm & Hr). congruence.
    + split; [|split; reflexivity].
      split; [discriminate|]. intros (_ & m & Hm & _). discriminate.
  - split; [|split; reflexivity].
    split; [discriminate|]. intros (H & _). discriminate.
Qed.

(** The walk of [findJavaFiles] never asks to skip, appends to the slice,
    and appends something exactly where an entry with the extension is
    reached. *)
Lemma walk_findJavaFiles (os : GOOS) (n : FS.node) :
  forall path acc,
    snd (FS.walk os findJavaFiles_fn path n acc) = FS.WalkNil /\
    exists l,
      fst (FS.walk os findJavaFiles_fn path n acc) = acc ++ l /\
      reaches ".java" n = negb (length l =? 0)%nat.
Proof.
  induction n as [nm data locked | nm r w kids IH] using node_induction;
    intros path acc.
  - simpl. unfold findJavaFiles_fn, has_ext. simpl.
    destruct (Strs.HasSuffix (Strs.ToLower nm) ".java"); simpl.
    + split; [reflexivity|]. exists [path]. auto.
    + split; [reflexivity|]. exists []. rewrite app_nil_r. auto.
  - simpl.
    destruct (findJavaFiles_fn path (FS.info (FS.Dir nm r w kids)) (negb r) acc)
      as [a e] eqn:E.
    unfold findJavaFiles_fn in E. simpl in E. unfold has_ext.
    destruct r; simpl in E |- *.
    2:{ injection E as <- <-. split; [reflexivity|]. exists [].
        rewrite app_nil_r. auto. }
    assert (Ha : e = FS.WalkNil /\ exists l0, a = acc ++ l0 /\
              Strs.HasSuffix (Strs.ToLower nm) ".java"
              = negb (length l0 =? 0)%nat).
    { destruct (Strs.HasSuffix (Strs.ToLower nm) ".java");
        injection E as <- <-; (split; [reflexivity|]).
      - exists [path]. auto.
      - exists []. rewrite app_nil_r. auto. }
    clear E. destruct Ha as (-> & l0 & -> & Hl0). rewrite Hl0. clear Hl0.
    revert l0. induction IH as [| k l Hk _ IHl]; intros l0.
    + simpl. split; [reflexivity|]. exists l0. rewrite orb_false_r. auto.
    + destruct (Hk (Filepath.Join os [path; FS.name k]) (acc ++ l0))
        as (He & l1 & Hl1 & Hr).
      destruct (FS.walk os findJavaFiles_fn
                  (Filepath.Join os [path; FS.name k]) k (acc ++ l0)) as [st e].
      simpl in He, Hl1. subst e st. rewrite <- app_assoc.
      destruct (IHl (l0 ++ l1)) as (He2 & l2 & Hl2 & Hr2).
      split; [exact He2|]. exists l2. split; [exact Hl2|].
      rewrite <- Hr2. simpl existsb. rewrite Hr.
      rewrite length_app.
      destruct l0, l1; simpl; rewrite ?orb_true_r; reflexivity.
Qed.

(** X2.  The presence check of the setup and the enumeration of the build
    agree: [hasJavaFiles] answers yes on a directory exactly when
    [findJavaFiles] returns at least one path for it. *)
Theorem validation_agrees_with_enumeration (w : World) (dir : string) :
  hasJavaFiles w dir = negb (length (findJavaFiles w dir) =? 0)%nat.
Proof.
  rewrite hasJavaFiles_reaches. unfold findJavaFiles, FS.Walk, Stat.
  destruct (FS.stat (goos w) (fs w) dir) as [n|]; [|reflexivity].
  destruct (walk_findJavaFiles (goos w) n dir []) as (_ & l & Hl & Hr).
  rewrite Hl. exact Hr.
Qed.

(** The test of [validateTargetDir]. *)
Definition valid_target (w : World) (dir : string) : bool :=
  exists_ w (Join w [dir; "SFS2X"]) &&
  exists_ w (Join w [Join w [dir; "SFS2X"]; "sfs2x.bat"]).

(** The warnings of [validateTargetDir] about the libraries of the
    server, the latest first. *)
Definition target_warnings (w : World) (dir : string) : list event :=
  let libDir := Join w [Join w [dir; "SFS2X"]; "lib"] in
  (if exists_ w (Join w [libDir; "sfs2x-core.jar"]) then []
   else [Out "Warning: sfs2x-core.jar not found at %s\n"
           [Join w [libDir; "sfs2x-core.jar"]]]) ++
  (if exists_ w (Join w [libDir; "sfs2x.jar"]) then []
   else [Out "Warning: sfs2x.jar not found at %s\n"
           [Join w [libDir; "sfs2x.jar"]]]).

Lemma validateTargetDir_cases (w : World) (dir : string) :
  validateTargetDir dir w
  = (valid_target w dir,
     if valid_target w dir
     then with_log (target_warnings w dir ++ log w) w else w).
Proof.
  unfold validateTargetDir, target_warnings, valid_target. rewrite gets_then.
  cbv zeta.
  destruct (exists_ w (Join w [dir; "SFS2X"])); cbn [negb andb]; [|reflexivity].
  destruct (exists_ w (Join w [Join w [dir; "SFS2X"]; "sfs2x.bat"]));
    cbn [negb]; [|reflexivity].
  destruct (exists_ w (Join w [_; "sfs2x.jar"]));
    destruct (exists_ w (Join w [_; "sfs2x-core.jar"]));
    cbn [negb]; unfold bind, ret, Printf, emit; cbn [app]; try reflexivity.
  destruct w; reflexivity.
Qed.

(** X3.  [validateTargetDir] accepts a directory exactly when [SFS2X] and
    [SFS2X/sfs2x.bat] exist in it.  The two libraries of the server are
    not required: for each one that is missing a warning is printed, and
    the directory is accepted all the same.  Nothing else changes. *)
Theorem target_validation_needs_the_start_script (w : World) (dir : string) :
  let sfsDir := Join w [dir; "SFS2X"] in
  let valid := exists_ w sfsDir && exists_ w (Join w [sfsDir; "sfs2x.bat"]) in
  validateTargetDir dir w
  = (valid,
     if valid then with_log (target_warnings w dir ++ log w) w else w).
Proof. apply validateTargetDir_cases. Qed.

(* ================================================================= *)
(** ** The processes on the port                                      *)
(* ================================================================= *)

(** X4.  [killPort9933] does nothing at all outside Windows.  On Windows
    it runs [netstat -ano]; when that fails it runs nothing more;
    otherwise it runs [taskkill /PID p /F] once for each line of the
    listing that contains [:9933] and [LISTENING] and has five fields or
    more, [p] being the last field, in the order of the lines, and
    nothing else.  It never touches the files or the configuration. *)
Theorem listeners_are_killed_in_order (w : World) :
  (is_windows (goos w) = false -> killPort9933 w = (tt, w)) /\
  shown is_run (snd (killPort9933 w))
  = (if is_windows (goos w) then
       let '(ok, output) := programs w (log w) "netstat" ["-ano"] in
       (if ok then rev (map taskkill (targets (Strs.Split output line_feed)))
        else [])
       ++ Run "netstat" ["-ano"] "" :: shown is_run w
     else shown is_run w) /\
  still (snd (killPort9933 w)) = still w.
Proof.
  split; [|split].
  - intros H. unfold killPort9933. rewrite gets_then, H. reflexivity.
  - apply killPort9933_runs.
  - apply still_killPort9933.
Qed.

(* ================================================================= *)
(** ** The questions of the setup                                     *)
(* ================================================================= *)

Lemma same_files_still w0 w : still w = still w0 -> same_files w0 w.
Proof. intros H. unfold still, calm in H. split; congruence. Qed.

Lemma same_files_trans w0 w1 w2 :
  same_files w0 w1 -> same_files w1 w2 -> same_files w0 w2.
Proof. intros [H1 H2] [H3 H4]. split; congruence. Qed.

Lemma same_files_with_stdin l w : same_files w (with_stdin l w).
Proof. split; reflexivity. Qed.

Lemma same_files_validateSourceDir w0 w d :
  same_files w0 w -> validateSourceDir w d = validateSourceDir w0 d.
Proof.
  intros H. pose proof (same_files_goos _ _ H) as Hg.
  unfold validateSourceDir, hasJavaFiles, Join.
  rewrite !(same_files_exists w0 w _ H), Hg.
  destruct H as [Hf _]. rewrite Hf. reflexivity.
Qed.

Lemma same_files_valid_target w0 w d :
  same_files w0 w -> valid_target w d = valid_target w0 d.
Proof.
  intros H. pose proof (same_files_goos _ _ H) as Hg.
  unfold valid_target, Join. rewrite !(same_files_exists w0 w _ H), Hg.
  reflexivity.
Qed.

(** What a loop returns satisfies what its rounds establish about the
    files, which the rounds do not change. *)
Lemma rounds_result_files {A} (body : string -> IO (option A))
  (P : World -> A -> Prop) :
  (forall line, keeps still (body line)) ->
  (forall line w0 w a,
     same_files w0 w -> fst (body line w) = Some a -> P w0 a) ->
  forall lines w0 w a w1,
    same_files w0 w -> rounds body lines w = Some (a, w1) -> P w0 a.
Proof.
  intros Hk Hb lines.
  induction lines as [|l rest IH]; intros w0 w a w1 H E; cbn [rounds] in E.
  - assert (H' : same_files w0 (with_stdin [] w))
      by (eapply same_files_trans; [exact H | apply same_files_with_stdin]).
    specialize (Hb "" w0 _ a H').
    destruct (body "" (with_stdin [] w)) as [[a'|] w']; [|discriminate].
    injection E as <- <-. apply Hb. reflexivity.
  - assert (H' : same_files w0 (with_stdin rest w))
      by (eapply same_files_trans; [exact H | apply same_files_with_stdin]).
    pose proof (same_files_keeps _ w0 _ (Hk l) H') as H1.
    specialize (Hb l w0 _ a H').
    destruct (body l (with_stdin rest w)) as [[a'|] w'].
    + injection E as <- <-. apply Hb. reflexivity.
    + eapply IH; [|exact E]. exact H1.
Qed.

Lemma source_loop_result w0 w s w1 :
  same_files w0 w ->
  read_loop source_round w = Some (s, w1) ->
  validateSourceDir w0 s = true.
Proof.
  unfold read_loop.
  apply (rounds_result_files source_round
           (fun w0 s => validateSourceDir w0 s = true)).
  - apply still_source_round.
  - clear. intros line w0 w s H. unfold source_round.
    rewrite run_bind, gets_then.
    rewrite (same_files_validateSourceDir w0); [|
      apply (same_files_keeps (Print _)); [keeps_auto | exact H]].
    destruct (validateSourceDir w0 (Strs.TrimSpace line)) eqn:E.
    + rewrite run_bind. cbn. intros [= <-]. exact E.
    + rewrite !run_bind. cbn. discriminate.
Qed.

Lemma target_loop_result w0 w s w1 :
  same_files w0 w ->
  read_loop target_round w = Some (s, w1) ->
  valid_target w0 s = true.
Proof.
  unfold read_loop.
  apply (rounds_result_files target_round
           (fun w0 s => valid_target w0 s = true)).
  - apply still_target_round.
  - clear. intros line w0 w s H. unfold target_round.
    rewrite !run_bind, validateTargetDir_cases. cbn [fst snd].
    rewrite (same_files_valid_target w0); [|
      apply (same_files_keeps (Print _)); [keeps_auto | exact H]].
    destruct (valid_target w0 (Strs.TrimSpace line)) eqn:E.
    + rewrite run_bind. cbn. intros [= <-]. exact E.
    + rewrite !run_bind. cbn. discriminate.
Qed.

Lemma first_valid_target_result l : forall w0 w,
  same_files w0 w ->
  fst (first_valid_target l w)
  = find (valid_target w0) l.
Proof.
  induction l as [|p l IH]; intros w0 w H; [reflexivity|].
  cbn [first_valid_target find]. rewrite run_bind, validateTargetDir_cases.
  cbn [fst snd]. rewrite (same_files_valid_target w0 w p H).
  destruct (valid_target w0 p); [reflexivity|]. apply IH. exact H.
Qed.

(** The candidates of [findSmartFoxServer]: the common paths, then the
    paths under the drive letters. *)
Definition commonServerPaths (w : World) : list string :=
  [ "C:\Users\Slint\SmartFoxServer_2X";
    "C:\SmartFoxServer_2X";
    "C:\Program Files\SmartFoxServer_2X";
    "C:\Program Files (x86)\SmartFoxServer_2X" ] ++
  match userHomeDir w with
  | Some userHome =>
      [ Join w [userHome; "SmartFoxServer_2X"];
        Join w [userHome; "SmartFoxServer"];
        Join w [userHome; "Desktop"; "SmartFoxServer_2X"];
        Join w [userHome; "Downloads"; "SmartFoxServer_2X"] ]
  | None => []
  end.

Definition serverCandidates (w : World) : list string :=
  commonServerPaths w ++ (if is_windows (goos w) then driveCandidates w else []).

Lemma find_app {A} (f : A -> bool) l1 l2 :
  find f (l1 ++ l2) = match find f l1 with Some a => Some a | None => find f l2 end.
Proof. induction l1 as [|a l1 IH]; simpl; [reflexivity|]. destruct (f a); auto. Qed.

Lemma findSmartFoxServer_result (w : World) :
  fst (findSmartFoxServer w)
  = match find (valid_target w) (serverCandidates w) with
    | Some d => d
    | None => ""
    end.
Proof.
  unfold findSmartFoxServer, serverCandidates. rewrite gets_then. cbv zeta.
  fold (commonServerPaths w).
  rewrite run_bind.
  rewrite (first_valid_target_result _ w w (same_files_refl w)).
  rewrite find_app.
  destruct (find (valid_target w) (commonServerPaths w)) as [d|] eqn:E;
    [reflexivity|].
  destruct (is_windows (goos w)); [|reflexivity].
  rewrite run_bind.
  rewrite (first_valid_target_result _ w).
  - destruct (find (valid_target w) (driveCandidates w)); reflexivity.
  - apply same_files_keeps; [apply still_first_valid_target|apply same_files_refl].
Qed.

Lemma same_files_findSmartFoxServer w0 w :
  same_files w0 w -> fst (findSmartFoxServer w) = fst (findSmartFoxServer w0).
Proof.
  intros H. rewrite !findSmartFoxServer_result.
  pose proof (same_files_goos _ _ H) as Hg.
  assert (Hu : userHomeDir w = userHomeDir w0)
    by (destruct H as [_ H]; unfold machine in H; congruence).
  assert (Hc : serverCandidates w = serverCandidates w0).
  { unfold serverCandidates, commonServerPaths, driveCandidates, Join.
    rewrite Hg, Hu. reflexivity. }
  rewrite Hc.
  assert (Hf : forall l, find (valid_target w) l = find (valid_target w0) l).
  { induction l as [|p l IH]; [reflexivity|].
    simpl. rewrite (same_files_valid_target w0 w p H), IH. reflexivity. }
  rewrite Hf. reflexivity.
Qed.

(** The case in which the collection keeps the target directory that it
    was given: no server is detected and the target is not empty. *)
Definition keeps_target (c : Config) (w : World) : bool :=
  (fst (findSmartFoxServer w) =? "") && negb (TargetDir c =? "").

Lemma keepsd_same {A} (m : IOd A) w0 w a w1 :
  keepsd still m -> same_files w0 w -> m w = Some (a, w1) -> same_files w0 w1.
Proof.
  intros Hk H E. apply Hk in E. eapply same_files_trans; [exact H|].
  apply same_files_still. exact E.
Qed.

Lemma collectConfig_validated c w b c1 w1 :
  collectConfig c w = Some ((b, c1), w1) ->
  validateSourceDir w (SourceDir c1) = true /\
  (if keeps_target c w then TargetDir c1 = TargetDir c
   else valid_target w (TargetDir c1) = true) /\
  b = negb (JavaPath c1 =? "") /\
  fs w1 = fs w.
Proof.
  unfold collectConfig. intros H.
  apply bindd_inv in H as (sourceDir & wa & Ea & H).
  assert (Sa : same_files w wa).
  { eapply keepsd_same; [|apply same_files_refl|exact Ea].
    apply keepsd_read_loop; [reflexivity | auto with keeps]. }
  apply (source_loop_result w w _ _ (same_files_refl w)) in Ea.
  apply bindd_inv in H as (auto_ & wb & Eb & H).
  assert (Sb : same_files w wb).
  { eapply keepsd_same; [|exact Sa|exact Eb]. apply keepsd_lift. auto with keeps. }
  assert (Hauto : auto_ = fst (findSmartFoxServer w)).
  { unfold lift in Eb. injection Eb as Eb.
    rewrite <- (same_files_findSmartFoxServer w wa Sa), Eb. reflexivity. }
  clear Eb.
  apply bindd_inv in H as (c2 & wc & Ec & H).
  assert (Sc : same_files w wc).
  { eapply keepsd_same; [|exact Sb|exact Ec].
    destruct (negb (auto_ =? "")); keepsd_auto. }
  assert (Hc2 : SourceDir c2 = sourceDir /\
                ExtensionFolder c2 = ExtensionFolder c /\
                if auto_ =? "" then TargetDir c2 = TargetDir c
                else TargetDir c2 = "" \/ TargetDir c2 = auto_).
  { destruct (auto_ =? ""); cbn [negb] in Ec.
    - unfold retd in Ec. injection Ec as <- _. auto.
    - apply bindd_inv in Ec as ([] & wx & _ & Ec).
      apply bindd_inv in Ec as (yes & wy & _ & Ec).
      destruct yes.
      + apply bindd_inv in Ec as ([] & wz & _ & Ec).
        unfold retd in Ec. injection Ec as <- _. auto.
      + unfold retd in Ec. injection Ec as <- _. auto. }
  clear Ec. destruct Hc2 as (Hs2 & _ & Ht2).
  apply bindd_inv in H as (c3 & wd & Ed & H).
  assert (Sd : same_files w wd).
  { eapply keepsd_same; [|exact Sc|exact Ed].
    destruct (TargetDir c2 =? ""); keepsd_auto. }
  assert (Hc3 : SourceDir c3 = sourceDir /\
                if TargetDir c2 =? "" then valid_target w (TargetDir c3) = true
                else TargetDir c3 = TargetDir c2).
  { destruct (TargetDir c2 =? "").
    - apply bindd_inv in Ed as (targetDir & wx & Ex & Ed).
      apply (target_loop_result w _ _ _ Sc) in Ex.
      unfold retd in Ed. injection Ed as <- _. auto.
    - unfold retd in Ed. injection Ed as <- _. auto. }
  clear Ed. destruct Hc3 as (Hs3 & Ht3).
  apply bindd_inv in H as (ext & we & Ee & H).
  assert (Se : same_files w we).
  { eapply keepsd_same; [|exact Sd|exact Ee].
    apply keepsd_read_loop; [reflexivity | auto with keeps]. }
  clear Ee.
  apply bindd_inv in H as (java & wf & Ef & H).
  assert (Sf : same_files w wf).
  { eapply keepsd_same; [|exact Se|exact Ef]. apply keepsd_lift. auto with keeps. }
  clear Ef.
  assert (Hfinal : c1 = set_JavaPath java (set_ExtensionFolder ext c3) /\
                   b = negb (java =? "") /\ same_files w w1).
  { destruct (java =? "").
    - apply bindd_inv in H as ([] & wx & Ex & H).
      unfold retd in H. injection H as <- <- <-.
      split; [reflexivity|]. split; [reflexivity|].
      eapply keepsd_same; [|exact Sf|exact Ex]. keepsd_auto.
    - apply bindd_inv in H as ([] & wx & Ex & H).
      unfold retd in H. injection H as <- <- <-.
      split; [reflexivity|]. split; [reflexivity|].
      unfold lift in Ex. injection Ex as Ex. subst wx.
      destruct Sf as [Hf Hm].
      split; [rewrite <- Hf | rewrite <- Hm];
        destruct (saved_writable wf); reflexivity. }
  destruct Hfinal as (-> & -> & Sw1).
  split; [cbn; rewrite Hs3; exact Ea|].
  split; [|split; [reflexivity | apply Sw1]].
  cbn [TargetDir set_JavaPath set_ExtensionFolder].
  unfold keeps_target. rewrite <- Hauto.
  destruct (auto_ =? "") eqn:Eauto; cbn [andb].
  - rewrite Ht2 in Ht3. destruct (TargetDir c =? "") eqn:Et; cbn [negb].
    + exact Ht3.
    + congruence.
  - assert (Hv : valid_target w auto_ = true).
    { rewrite Hauto, findSmartFoxServer_result.
      rewrite Hauto, findSmartFoxServer_result in Eauto.
      destruct (find (valid_target w) (serverCandidates w)) as [d|] eqn:Ef;
        [|discriminate].
      apply find_some in Ef. apply Ef. }
    destruct Ht2 as [Ht2|Ht2]; rewrite Ht2 in Ht3.
    + exact Ht3.
    + rewrite Eauto in Ht3. rewrite Ht3. exact Hv.
Qed.

Lemma lift_then {A B} (m : IO A) (k : A -> IOd B) (w : World) :
  bindd (lift m) k w = k (fst (m w)) (snd (m w)).
Proof. unfold bindd, lift. destruct (m w). reflexivity. Qed.

(** What a line answers to a question. *)
Definition answer (line : string) : option bool :=
  let response := Strs.ToLower (Strs.TrimSpace line) in
  if (response =? "y") || (response =? "yes") then Some true
  else if (response =? "n") || (response =? "no") then Some false
  else None.

(** What a round that got no answer has printed, the latest first. *)
Definition asked_again (prompt : string) : list event :=
  [Out "Please enter 'y' or 'n'" []; Out prompt []].

Lemma askYesNo_step (prompt : string) (w : World) :
  askYesNo prompt w
  = match stdin w with
    | [] => None
    | line :: rest =>
        match answer line with
        | Some b =>
            Some (b, with_log (Out prompt [] :: log w) (with_stdin rest w))
        | None =>
            askYesNo prompt
              (with_log (asked_again prompt ++ log w) (with_stdin rest w))
        end
    end.
Proof.
  unfold askYesNo, read_loop, answer.
  destruct (stdin w) as [|line rest]; [reflexivity|].
  cbn [stdin with_stdin with_log rounds]. cbv zeta.
  destruct ((_ =? "y") || _); [reflexivity|].
  destruct ((_ =? "n") || _); reflexivity.
Qed.

(** X5.  [askYesNo] prints the prompt and reads one line in each round; it
    returns true for [y] and [yes], false for [n] and [no] (whatever the
    case and the blanks around), and asks again after any other line.  At
    the end of the input it never returns: every round reads the empty
    line. *)
Theorem askYesNo_reads_until_an_answer (prompt : string) (w : World) :
  askYesNo prompt (with_stdin [] w) = None /\
  forall line rest,
    askYesNo prompt (with_stdin (line :: rest) w)
    = match answer line with
      | Some b => Some (b, with_log (Out prompt [] :: log w) (with_stdin rest w))
      | None =>
          askYesNo prompt
            (with_log (asked_again prompt ++ log w) (with_stdin rest w))
      end.
Proof.
  split; [reflexivity|]. intros line rest. rewrite askYesNo_step. reflexivity.
Qed.

(* ================================================================= *)
(** ** The configuration that the setup stores                        *)
(* ================================================================= *)

(** The world in which the setup starts its work. *)
Definition setup_started (w : World) : World :=
  with_log (Out (banner Setup) [] :: log w) w.

Lemma reusePrevious_none c w :
  saved w = None ->
  reusePrevious c w = Some ((None, c), w) /\
  ConfigGo.reusePrevious c w = Some ((None, c), w).
Proof.
  intros H. unfold reusePrevious, ConfigGo.reusePrevious.
  rewrite !lift_then. unfold loadConfig. rewrite H. split; reflexivity.
Qed.

Lemma setupDirectories_first_time c w :
  saved w = None ->
  setupDirectories c w = collectConfig c (setup_started w) /\
  ConfigGo.setupDirectories c w = collectConfig c (setup_started w).
Proof.
  intros H. unfold setupDirectories, ConfigGo.setupDirectories.
  rewrite !lift_then. unfold bindd.
  destruct (reusePrevious_none c (setup_started w) H) as [E1 E2].
  change (snd (Println "Phase 1: Directory Setup" w)) with (setup_started w).
  rewrite E1, E2. split; reflexivity.
Qed.

(** The test of the saved paths. *)
Definition paths_valid (w : World) (c : Config) : bool :=
  validateSourceDir w (SourceDir c) && valid_target w (TargetDir c).

Lemma reusePrevious_cfg_invalid c w sc :
  saved w = Some sc ->
  paths_valid w sc = false ->
  ConfigGo.reusePrevious c w
  = Some ((None, sc),
          with_log (Out "Config paths are no longer valid, please enter new ones" []
                    :: log w) w).
Proof.
  intros H Hv. unfold ConfigGo.reusePrevious.
  rewrite lift_then. unfold loadConfig. rewrite H. cbn [fst snd].
  rewrite lift_then. cbn [gets fst snd]. unfold paths_valid in Hv.
  destruct (validateSourceDir w (SourceDir sc)); [|reflexivity].
  cbn [andb] in Hv. rewrite lift_then, validateTargetDir_cases, Hv.
  reflexivity.
Qed.

Lemma reusePrevious_invalid c w sc line rest :
  saved w = Some sc ->
  paths_valid w sc = false ->
  stdin w = line :: rest ->
  answer line = Some true ->
  exists w1, reusePrevious c w = Some ((None, sc), w1) /\ same_files w w1.
Proof.
  intros H Hv Hin Hans. unfold reusePrevious.
  rewrite lift_then. unfold loadConfig. rewrite H. cbn [fst snd].
  rewrite lift_then. cbn [fst]. unfold bindd at 1.
  match goal with |- context [askYesNo ?p ?w0] =>
    assert (Hs : same_files w w0)
      by (apply same_files_keeps; [keeps_auto | apply same_files_refl]);
    assert (Hin0 : stdin w0 = line :: rest) by exact Hin;
    remember w0 as wp eqn:Ewp; clear Ewp
  end.
  rewrite askYesNo_step, Hin0, Hans.
  rewrite lift_then. cbn [gets fst snd].
  match goal with |- context [validateSourceDir ?w0 _] =>
    assert (Hs1 : same_files w w0)
      by (destruct Hs as [Hf Hm]; split; [exact Hf | exact Hm]);
    remember w0 as wq eqn:Ewq; clear Ewq
  end.
  unfold paths_valid in Hv.
  rewrite (same_files_validateSourceDir w wq _ Hs1).
  destruct (validateSourceDir w (SourceDir sc)).
  - cbn [andb] in Hv. rewrite lift_then, validateTargetDir_cases.
    rewrite (same_files_valid_target w wq _ Hs1), Hv. cbn [fst snd].
    rewrite lift_then. eexists. split; [reflexivity|].
    apply (same_files_keeps (Println _)); [keeps_auto | exact Hs1].
  - rewrite lift_then. eexists. split; [reflexivity|].
    apply (same_files_keeps (Println _)); [keeps_auto | exact Hs1].
Qed.

Lemma reusePrevious_cfg_valid c w sc :
  saved w = Some sc ->
  paths_valid w sc = true ->
  exists j w1,
    ConfigGo.reusePrevious c w
    = Some ((Some (negb (j =? "")), set_JavaPath j sc), w1) /\
    still w1 = still w.
Proof.
  intros H Hv. unfold paths_valid in Hv. apply andb_prop in Hv as [Hs Ht].
  pose proof (still_reusePrevious_cfg c w) as Hk.
  unfold ConfigGo.reusePrevious in *.
  rewrite lift_then in *. unfold loadConfig in *. rewrite H in *.
  cbn [fst snd] in *. rewrite lift_then in *. cbn [gets fst snd] in *.
  rewrite Hs in *. rewrite lift_then, validateTargetDir_cases, Ht in *.
  cbn [fst snd] in *. rewrite lift_then in *.
  match goal with |- context [findJava11Path ?w0] =>
    destruct (findJava11Path w0) as [j wj] end.
  cbn [fst snd] in *. exists j.
  destruct (j =? ""); rewrite lift_then in *; eexists;
    (split; [reflexivity|]); eapply Hk; reflexivity.
Qed.

Lemma reusePrevious_valid c w sc line rest :
  saved w = Some sc ->
  paths_valid w sc = true ->
  stdin w = line :: rest ->
  answer line = Some true ->
  exists j w1,
    reusePrevious c w
    = Some ((Some (negb (j =? "")), set_JavaPath j sc), w1) /\
    still w1 = still w.
Proof.
  intros H Hv Hin Hans. unfold paths_valid in Hv.
  apply andb_prop in Hv as [Hs Ht].
  pose proof (still_reusePrevious c w) as Hk.
  unfold reusePrevious in *.
  rewrite lift_then in *. unfold loadConfig in *. rewrite H in *.
  cbn [fst snd] in *. rewrite lift_then in *. cbn [fst] in *.
  unfold bindd at 1. unfold bindd at 1 in Hk.
  match goal with |- context [askYesNo ?p ?w0] =>
    assert (Hs0 : same_files w w0)
      by (apply same_files_keeps; [keeps_auto | apply same_files_refl]);
    assert (Hin0 : stdin w0 = line :: rest) by exact Hin;
    remember w0 as wp eqn:Ewp; clear Ewp
  end.
  rewrite askYesNo_step, Hin0, Hans in *.
  rewrite lift_then in *. cbn [gets fst snd] in *.
  match goal with |- context [validateSourceDir ?w0 _] =>
    assert (Hs1 : same_files w w0)
      by (destruct Hs0 as [Hf Hm]; split; [exact Hf | exact Hm]);
    remember w0 as wq eqn:Ewq; clear Ewq
  end.
  rewrite (same_files_validateSourceDir w wq _ Hs1), Hs in *.
  rewrite lift_then, validateTargetDir_cases in *.
  rewrite (same_files_valid_target w wq _ Hs1), Ht in *.
  cbn [fst snd] in *. rewrite lift_then in *.
  match goal with |- context [findJava11Path ?w0] =>
    destruct (findJava11Path w0) as [j wj] end.
  cbn [fst snd] in *. exists j.
  destruct (j =? ""); rewrite lift_then in *; eexists;
    (split; [reflexivity|]); eapply Hk; reflexivity.
Qed.

Lemma keeps_target_same c w0 w :
  same_files w0 w -> keeps_target c w = keeps_target c w0.
Proof.
  intros H. unfold keeps_target.
  rewrite (same_files_findSmartFoxServer w0 w H). reflexivity.
Qed.

Lemma same_files_started w : same_files w (setup_started w).
Proof. split; reflexivity. Qed.

(** X6.  A first setup (there is no configuration file, and the
    configuration starts with an empty target) that returns is the same
    in both sources, and has stored a source directory that passes
    [validateSourceDir], a target directory that passes
    [validateTargetDir] (typed, or detected and accepted), and a plain
    name for the extension; it succeeds exactly when a toolchain was
    found; and it has changed no file. *)
Theorem first_setup_validates_the_configuration
  (w : World) (c : Config) (b : bool) (c1 : Config) (w1 : World) :
  saved w = None ->
  TargetDir c = "" ->
  setupDirectories c w = Some ((b, c1), w1) ->
  ConfigGo.setupDirectories c w = setupDirectories c w /\
  validateSourceDir w (SourceDir c1) = true /\
  valid_target w (TargetDir c1) = true /\
  plain_name (ExtensionFolder c1) /\
  b = negb (JavaPath c1 =? "") /\
  fs w1 = fs w.
Proof.
  intros Hs Ht H.
  destruct (setupDirectories_first_time c w Hs) as [E1 E2].
  split; [congruence|]. rewrite E1 in H.
  pose proof (collectConfig_result _ _ _ _ _ H) as [Hext _].
  apply collectConfig_validated in H as (Hsrc & Htgt & Hb & Hfs).
  pose proof (same_files_started w) as Sw.
  rewrite (same_files_validateSourceDir w _ _ Sw) in Hsrc.
  rewrite (keeps_target_same c w _ Sw) in Htgt.
  rewrite (same_files_valid_target w _ _ Sw) in Htgt.
  unfold keeps_target in Htgt. rewrite Ht, andb_false_r in Htgt.
  split; [exact Hsrc|]. split; [exact Htgt|].
  split; [apply validExtensionFolder_spec; exact Hext|].
  split; [exact Hb | exact Hfs].
Qed.

(** X7.  When the paths of the configuration file are no longer valid
    (and, in the monolithic source, the operator has asked for the
    previous configuration), the setup announces that new paths are
    needed, but it has already copied the saved configuration: where no
    server is detected, its target directory is not empty, the loop that
    asks for a target is skipped, and the setup ends with the target of
    the file, valid or not. *)
Theorem invalid_saved_target_is_kept (w : World) (sc : Config) :
  saved w = Some sc ->
  paths_valid w sc = false ->
  TargetDir sc <> "" ->
  fst (findSmartFoxServer w) = "" ->
  (forall c b c1 w1,
     ConfigGo.setupDirectories c w = Some ((b, c1), w1) ->
     TargetDir c1 = TargetDir sc) /\
  (forall c b c1 w1 line rest,
     stdin w = line :: rest ->
     answer line = Some true ->
     setupDirectories c w = Some ((b, c1), w1) ->
     TargetDir c1 = TargetDir sc).
Proof.
  intros Hs Hv Ht Hauto.
  assert (Hk : forall w', same_files w w' -> keeps_target sc w' = true).
  { intros w' Sw. rewrite (keeps_target_same sc w w' Sw).
    unfold keeps_target. rewrite Hauto.
    destruct (TargetDir sc =? "") eqn:E; [|reflexivity].
    apply String.eqb_eq in E. contradiction. }
  split.
  - intros c b c1 w1 H. unfold ConfigGo.setupDirectories in H.
    rewrite lift_then in H. unfold bindd in H.
    change (snd (Println "Phase 1: Directory Setup" w))
      with (setup_started w) in H.
    rewrite (reusePrevious_cfg_invalid c (setup_started w) sc Hs Hv) in H.
    apply collectConfig_validated in H as (_ & Htgt & _).
    rewrite Hk in Htgt; [exact Htgt|].
    apply (same_files_keeps (Println _));
      [keeps_auto | apply same_files_started].
  - intros c b c1 w1 line rest Hin Hans H. unfold setupDirectories in H.
    rewrite lift_then in H. unfold bindd in H.
    change (snd (Println "Phase 1: Directory Setup" w))
      with (setup_started w) in H.
    destruct (reusePrevious_invalid c (setup_started w) sc line rest
                Hs Hv Hin Hans) as (w2 & E & Sw2).
    rewrite E in H.
    apply collectConfig_validated in H as (_ & Htgt & _).
    rewrite Hk in Htgt; [exact Htgt|].
    eapply same_files_trans; [apply same_files_started | exact Sw2].
Qed.

(** The configuration file and the files are as they were, and nothing
    has been written to the configuration file. *)
Definition unwritten (w w1 : World) : Prop :=
  saved w1 = saved w /\ shown is_write w1 = shown is_write w /\ fs w1 = fs w.

Lemma unwritten_started w w1 :
  still w1 = still (setup_started w) -> unwritten w w1.
Proof.
  intros H. unfold unwritten.
  assert (Hw : shown is_write (setup_started w) = shown is_write w)
    by reflexivity.
  assert (Hs : saved (setup_started w) = saved w) by reflexivity.
  assert (Hf : fs (setup_started w) = fs w) by reflexivity.
  unfold still, calm in H. rewrite <- Hw, <- Hs, <- Hf.
  repeat split; congruence.
Qed.

(** X8.  When the paths of the configuration file are valid, the setup of
    [config.go] returns without a question, and that of the monolithic
    source after the answer yes, with the saved configuration and the
    toolchain found; the extension folder is the one of the file,
    whatever it is, and nothing is written. *)
Theorem saved_configuration_is_reused_unchecked (w : World) (sc : Config) :
  saved w = Some sc ->
  paths_valid w sc = true ->
  (forall c, exists j w1,
     ConfigGo.setupDirectories c w
     = Some ((negb (j =? ""), set_JavaPath j sc), w1) /\
     unwritten w w1) /\
  (forall c line rest,
     stdin w = line :: rest ->
     answer line = Some true ->
     exists j w1,
       setupDirectories c w
       = Some ((negb (j =? ""), set_JavaPath j sc), w1) /\
       unwritten w w1).
Proof.
  intros Hs Hv. split.
  - intros c.
    destruct (reusePrevious_cfg_valid c (setup_started w) sc Hs Hv)
      as (j & w1 & E & Hk).
    exists j, w1. split; [|apply unwritten_started; exact Hk].
    unfold ConfigGo.setupDirectories. rewrite lift_then. unfold bindd.
    change (snd (Println "Phase 1: Directory Setup" w))
      with (setup_started w).
    rewrite E. reflexivity.
  - intros c line rest Hin Hans.
    destruct (reusePrevious_valid c (setup_started w) sc line rest
                Hs Hv Hin Hans) as (j & w1 & E & Hk).
    exists j, w1. split; [|apply unwritten_started; exact Hk].
    unfold setupDirectories. rewrite lift_then. unfold bindd.
    change (snd (Println "Phase 1: Directory Setup" w))
      with (setup_started w).
    rewrite E. reflexivity.
Qed.

(** X9.  [findSmartFoxServer] returns the first of its candidates, in
    their fixed order (the four fixed paths, the four under the home
    directory when there is one, and on Windows only the thirty-six
    under the drive letters), that [validateTargetDir] accepts, and the
    empty string when there is none; so a directory that it returns is a
    valid target.  It changes nothing but the log. *)
Theorem server_detection_takes_the_first_valid_candidate (w : World) :
  fst (findSmartFoxServer w)
  = match find (valid_target w) (serverCandidates w) with
    | Some d => d
    | None => ""
    end /\
  (fst (findSmartFoxServer w) <> "" ->
   In (fst (findSmartFoxServer w)) (serverCandidates w) /\
   valid_target w (fst (findSmartFoxServer w)) = true) /\
  still (snd (findSmartFoxServer w)) = still w.
Proof.
  split; [apply findSmartFoxServer_result|].
  split; [|apply still_findSmartFoxServer].
  rewrite findSmartFoxServer_result.
  destruct (find (valid_target w) (serverCandidates w)) as [d|] eqn:E.
  - intros _. apply find_some in E. exact E.
  - intros H. contradiction.
Qed.

(** A workstation: a project with one source, a server installation, and
    a compiler of the wanted version on the search path. *)
Definition workstation_tree : FS.node :=
  FS.Dir "" true true
    [ FS.Dir "proj" true true
        [ FS.Dir "src" true true [ FS.File "Main.java" "" false ] ];
      FS.Dir "srv" true true
        [ FS.Dir "SFS2X" true true
            [ FS.Dir "lib" true true [ FS.File "sfs2x.jar" "" false ];
              FS.File "sfs2x.bat" "" false ] ];
      FS.Dir "usr" true true
        [ FS.Dir "bin" true true [ FS.File "javac" "" false ] ] ].

Definition workstation (typed : list string) (file : option Config) : World :=
  mkWorld other_os "" (Some "/usr/bin/javac") None typed workstation_tree
    file true
    (fun _ name _ =>
       if name =? "/usr/bin/javac" then (true, "javac 11.0.2") else (false, ""))
    (fun _ _ _ _ t => ((false, ""), t))
    [] "".

(** The world in which a computation that returns ends. *)
Definition outcome {A} (r : option (A * World)) (otherwise : World) : World :=
  match r with
  | Some (_, w1) => w1
  | None => otherwise
  end.

Lemma first_setup_validates_the_configuration_witness :
  let w := workstation ["/proj"; "/srv"; "Ext"] None in
  let c1 := mkConfig "/proj" "/srv" "Ext" "/usr/bin" in
  setupDirectories emptyConfig w
  = Some ((true, c1), outcome (setupDirectories emptyConfig w) w) /\
  validateSourceDir w (SourceDir c1) = true /\
  valid_target w (TargetDir c1) = true.
Proof.
  cbv zeta.
  assert (E : setupDirectories emptyConfig
                (workstation ["/proj"; "/srv"; "Ext"] None)
              = Some ((true, mkConfig "/proj" "/srv" "Ext" "/usr/bin"),
                      outcome (setupDirectories emptyConfig
                                 (workstation ["/proj"; "/srv"; "Ext"] None))
                        (workstation ["/proj"; "/srv"; "Ext"] None)))
    by (vm_compute; reflexivity).
  split; [exact E|].
  pose proof (first_setup_validates_the_configuration
                (workstation ["/proj"; "/srv"; "Ext"] None) emptyConfig
                _ _ _ eq_refl eq_refl E) as (_ & H1 & H2 & _).
  split; [exact H1 | exact H2].
Defined.

Lemma invalid_saved_target_is_kept_witness :
  let sc := mkConfig "/old" "/gone" "Ext" "" in
  let w := workstation ["/proj"; "Ext"] (Some sc) in
  let c1 := mkConfig "/proj" "/gone" "Ext" "/usr/bin" in
  valid_target w "/gone" = false /\
  ConfigGo.setupDirectories emptyConfig w
  = Some ((true, c1), outcome (ConfigGo.setupDirectories emptyConfig w) w) /\
  saved (outcome (ConfigGo.setupDirectories emptyConfig w) w) = Some c1 /\
  TargetDir c1 = TargetDir sc.
Proof.
  cbv zeta.
  set (sc := mkConfig "/old" "/gone" "Ext" "").
  set (w := workstation ["/proj"; "Ext"] (Some sc)).
  assert (Hv : paths_valid w sc = false) by (vm_compute; reflexivity).
  assert (Ht : valid_target w "/gone" = false) by (vm_compute; reflexivity).
  assert (Ha : fst (findSmartFoxServer w) = "") by (vm_compute; reflexivity).
  assert (E : ConfigGo.setupDirectories emptyConfig w
              = Some ((true, mkConfig "/proj" "/gone" "Ext" "/usr/bin"),
                      outcome (ConfigGo.setupDirectories emptyConfig w) w))
    by (vm_compute; reflexivity).
  assert (Hsv : saved (outcome (ConfigGo.setupDirectories emptyConfig w) w)
                = Some (mkConfig "/proj" "/gone" "Ext" "/usr/bin"))
    by (vm_compute; reflexivity).
  assert (Hn : TargetDir sc <> "") by discriminate.
  split; [exact Ht|]. split; [exact E|]. split; [exact Hsv|].
  exact (proj1 (invalid_saved_target_is_kept w sc eq_refl Hv Hn Ha)
           emptyConfig _ _ _ E).
Defined.

Lemma saved_configuration_is_reused_unchecked_witness :
  let sc := mkConfig "/proj" "/srv" "..\..\lib" "" in
  let w := workstation [] (Some sc) in
  validExtensionFolder (ExtensionFolder sc) = false /\
  exists j w1,
    ConfigGo.setupDirectories emptyConfig w
    = Some ((negb (j =? ""), set_JavaPath j sc), w1) /\
    unwritten w w1.
Proof.
  cbv zeta.
  set (sc := mkConfig "/proj" "/srv" "..\..\lib" "").
  set (w := workstation [] (Some sc)).
  assert (Hv : paths_valid w sc = true) by (vm_compute; reflexivity).
  split; [vm_compute; reflexivity|].
  exact (proj1 (saved_configuration_is_reused_unchecked w sc eq_refl Hv)
           emptyConfig).
Defined.

(* ================================================================= *)
(** ** The tools of the build                                         *)
(* ================================================================= *)

(** The sources directory of the build. *)
Definition build_srcDir (c : Config) (w : World) : string :=
  Join w [SourceDir c; "src"].

(** The start of the compiler and of the packager. *)
Definition javac_run (c : Config) (w : World) (classpath : string) : event :=
  Run (exe w (Join w [JavaPath c; "javac"]))
      (["-cp"; classpath; "-d"; build_srcDir c w] ++ sources_found c w)
      (build_srcDir c w).

Definition jar_run (c : Config) (w : World) : event :=
  Run (exe w (Join w [JavaPath c; "jar"]))
      ["cf"; Join w [SourceDir c; "ServerExtension.jar"]; "."]
      (build_srcDir c w).

(** What the tool of a start answers and leaves, when it is started after
    the events [before] on the file tree [tree]. *)
Definition tool (w : World) (before : list event) (tree : FS.node) (e : event)
  : (bool * string) * FS.node :=
  match e with
  | Run name args dir => builders w before name args dir tree
  | _ => ((false, ""), tree)
  end.

Lemma exec_build_then {A} name args dir (k : bool * string -> IO A) w :
  bind (exec_build name args dir) k w
  = k (fst (builders w (log w) name args dir (fs w)))
      (with_fs (snd (builders w (log w) name args dir (fs w)))
         (with_log (Run name args dir :: log w) w)).
Proof.
  unfold bind, exec_build.
  destruct (builders w (log w) name args dir (fs w)). reflexivity.
Qed.


Lemma log_cleanClassFiles (d : string) : keeps log (cleanClassFiles d).
Proof.
  intros w. unfold cleanClassFiles. simpl.
  apply (Walk_keeps (goos w) World _ cleanClassFiles_fn log).
  intros p i e st. unfold cleanClassFiles_fn.
  destruct e; [reflexivity|].
  destruct (Strs.HasSuffix _ _); [|reflexivity].
  unfold os_Remove. simpl. destruct (p =? ""); [reflexivity|].
  destruct (FS.remove _ _); reflexivity.
Qed.

Lemma same_files_buildClasspath w0 w lib :
  same_files w0 w -> fst (buildClasspath lib w) = fst (buildClasspath lib w0).
Proof.
  intros H. rewrite !buildClasspath_cases. unfold required_matches, Join.
  pose proof (same_files_goos _ _ H) as Hg. rewrite Hg.
  rewrite (same_files_Glob w0 w _ H).
  destruct (Glob w0 _); [|reflexivity].
  assert (E : forall l,
            flat_map (fun p => Glob w (Filepath.Join (goos w0) [lib; p])) l
            = flat_map (fun p => Glob w0 (Filepath.Join (goos w0) [lib; p])) l).
  { induction l as [|p l IH]; [reflexivity|]. simpl.
    rewrite (same_files_Glob w0 w _ H), IH. reflexivity. }
  rewrite E. destruct (flat_map _ requiredJars); reflexivity.
Qed.

Lemma log_buildClasspath lib w :
  shown is_run (snd (buildClasspath lib w)) = shown is_run w.
Proof.
  rewrite buildClasspath_cases.
  destruct (Glob w _); [|reflexivity].
  destruct (required_matches w lib); reflexivity.
Qed.

(** The world in which the build enumerates the sources. *)
Definition cleaned (c : Config) (w : World) : World :=
  snd (cleanClassFiles (build_srcDir c w) w).

(** The classpath of the build. *)
Definition build_classpath (c : Config) (w : World) : string :=
  fst (buildClasspath (Join w [TargetDir c; "SFS2X"; "lib"]) (cleaned c w)).

(** X10.  A build that finds sources runs the compiler, in the sources
    directory, with the classpath of the server libraries, the sources
    directory as output and the sources found; no program has been run
    before it.  When the compiler fails the build fails and the packager
    is not run.  When it succeeds the packager is run next, in the same
    directory, on [ServerExtension.jar] in the project root, and the
    build succeeds exactly when the packager does.  The files after the
    build are those that the last tool left. *)
Theorem build_runs_the_compiler_then_the_packager (c : Config) (w : World) :
  sources_found c w <> [] ->
  exists before,
    filter is_run before = shown is_run w /\
    let javac := javac_run c w (build_classpath c w) in
    let compiled := tool w before (fs (cleaned c w)) javac in
    let before2 :=
      Out "Creating JAR file..." [] :: Out "Compilation successful" []
      :: javac :: before in
    let packaged := tool w before2 (snd compiled) (jar_run c w) in
    let w1 := snd (buildProject c w) in
    if fst (fst compiled) then
      fst (buildProject c w) = fst (fst packaged) /\
      shown is_run w1 = jar_run c w :: javac :: shown is_run w /\
      fs w1 = snd packaged
    else
      fst (buildProject c w) = false /\
      shown is_run w1 = javac :: shown is_run w /\
      fs w1 = snd compiled.
Proof.
  intros Hne. unfold buildProject.
  rewrite Println_then, gets_then, Println_then, run_bind.
  change (Join _ [SourceDir c; "src"]) with (Join w [SourceDir c; "src"]).
  rewrite !cleanClassFiles_with_log.
  fold (build_srcDir c w). fold (cleaned c w).
  rewrite Println_then, gets_then.
  change (findJavaFiles _ (build_srcDir c w)) with (sources_found c w).
  destruct (sources_found c w) as [|f files] eqn:Ef; [contradiction|].
  cbn [length Nat.eqb]. rewrite Printf_then, run_bind.
  match goal with |- context [buildClasspath ?lib ?w0] =>
    assert (Hs : same_files (cleaned c w) w0) by (split; reflexivity);
    assert (Hr : shown is_run w0 = shown is_run w) by reflexivity;
    change lib with (Join w [TargetDir c; "SFS2X"; "lib"]);
    remember w0 as wp eqn:Ewp; clear Ewp
  end.
  rewrite (same_files_buildClasspath (cleaned c w) wp _ Hs).
  fold (build_classpath c w).
  pose proof (same_files_keeps
                (buildClasspath (Join w [TargetDir c; "SFS2X"; "lib"]))
                _ _ (still_buildClasspath _) Hs) as Hs2.
  pose proof (log_buildClasspath (Join w [TargetDir c; "SFS2X"; "lib"]) wp)
    as Hr2.
  rewrite Hr in Hr2. clear Hr Hs.
  remember (snd (buildClasspath (Join w [TargetDir c; "SFS2X"; "lib"]) wp))
    as wa eqn:Ewa. clear Ewa wp.
  assert (Hb : builders wa = builders w).
  { destruct Hs2 as [_ Hm].
    pose proof (calm_cleanClassFiles (build_srcDir c w) w) as Hc.
    fold (cleaned c w) in Hc. unfold calm in Hc. unfold machine in *.
    congruence. }
  destruct Hs2 as [Hf _].
  exists (log wa). split; [exact Hr2|]. cbv zeta.
  rewrite !exec_build_then. rewrite Hb, Hf.
  unfold tool, javac_run, jar_run. rewrite Ef.
  change (exe (with_log (Out "Phase 2: Building Project" [] :: log w) w))
    with (exe w).
  change (Join (with_log (Out "Phase 2: Building Project" [] :: log w) w))
    with (Join w).
  destruct (builders w (log wa) (exe w (Join w [JavaPath c; "javac"])) _ _ _)
    as [[ok out] t].
  cbn [fst snd]. destruct ok; cbn [negb].
  - rewrite Println_then, Println_then, exec_build_then.
    cbn [builders fs log with_log with_fs]. rewrite Hb.
    destruct (builders w _ (exe w (Join w [JavaPath c; "jar"])) _ _ t)
      as [[ok2 out2] t2].
    cbn [fst snd]. unfold shown in *.
    destruct ok2; cbn [negb]; (split; [reflexivity|]); (split; [|reflexivity]);
      cbn; rewrite Hr2; reflexivity.
  - split; [reflexivity|]. split; [|reflexivity].
    unfold shown in *. cbn. rewrite Hr2. reflexivity.
Qed.

(** A workstation on which the compiler and the packager succeed. *)
Definition build_host : World :=
  mkWorld other_os "" (Some "/usr/bin/javac") None [] workstation_tree
    None true
    (fun _ _ _ => (false, ""))
    (fun _ name _ _ t =>
       if (name =? "/usr/bin/javac") || (name =? "/usr/bin/jar")
       then ((true, ""), t) else ((false, "not found"), t))
    [] "".

Definition build_config : Config := mkConfig "/proj" "/srv" "Ext" "/usr/bin".

Lemma build_runs_the_compiler_then_the_packager_witness :
  sources_found build_config build_host = ["/proj/src/Main.java"] /\
  fst (buildProject build_config build_host) = true /\
  shown is_run (snd (buildProject build_config build_host))
  = [ Run "/usr/bin/jar" ["cf"; "/proj/ServerExtension.jar"; "."] "/proj/src";
      Run "/usr/bin/javac"
        ["-cp"; "/srv/SFS2X/lib/sfs2x.jar"; "-d"; "/proj/src";
         "/proj/src/Main.java"]
        "/proj/src" ].
Proof.
  assert (Hs : sources_found build_config build_host = ["/proj/src/Main.java"])
    by (vm_compute; reflexivity).
  assert (Hne : sources_found build_config build_host <> [])
    by (rewrite Hs; discriminate).
  split; [exact Hs|].
  destruct (build_runs_the_compiler_then_the_packager
              build_config build_host Hne) as (before & _ & H).
  cbv zeta in H.
  assert (Hc : fst (fst (tool build_host before
                           (fs (cleaned build_config build_host))
                           (javac_run build_config build_host
                              (build_classpath build_config build_host))))
               = true) by (vm_compute; reflexivity).
  rewrite Hc in H. destruct H as (H1 & H2 & _).
  rewrite H1, H2. split; vm_compute; reflexivity.
Defined.
